(** * The resume section editor of the browser extension popup

    A shallow embedding of the "advanced editor" of the popup script:
    [renderEditor], [renderItemBlock], [createBulletRow], [parseEditor] and the
    four handlers that drive an edit session (open, section change, cancel,
    save and regenerate).

    Conventions of the embedding.
    - JavaScript values are the JSON-shaped values a resume document is made
      of, plus [undefined]; numbers, which no section holds, are left out.
      A string is a sequence of code units below 256.
    - An object is its list of own properties in enumeration order.  Only own
      properties are modelled, never the prototype chain: a lookup is the
      lookup of an own property, which is what [o[k]] is for every name that
      [Object.prototype] does not define.
    - The form is the element tree the markup templates denote.  The text
      spliced into a template slot becomes the value of the field it fills.
      That is what the browser builds when the text carries no markup
      characters (see [Shapes.plain_text]); the templates do not escape what
      they splice, so for other text the browser builds another tree, which
      is outside the embedding.  Statements about a rendered form therefore
      ask for a form of markup-free text (see [Shapes.plain_form]).
    - Every element of a form carries a string [value]: the forms are made
      of the controls of the templates.  An element of one of the queried
      classes that is no control, whose [value] is [undefined], is outside
      the embedding.
    - A thrown [TypeError] is the [None] of an [option].
    - A listener runs to completion.  The save listener, which waits for the
      server, is split into the click and the settling of the request; the
      timer armed on open is a step of its own. *)

From Stdlib Require Import String Ascii List Bool NArith Lia DecimalString.
Import ListNotations.
Open Scope string_scope.
Set Warnings "-register-all".

(** ** JavaScript values *)

Module Js.

Inductive value : Type :=
| VUndef
| VNull
| VBool (b : bool)
| VStr (s : string)
| VArr (items : list value)
| VObj (props : list (string * value)).

(** Own properties of an object, in enumeration order. *)
Definition obj := list (string * value).
Bind Scope list_scope with obj.

(** Truthiness, as tested by [if (x)], [!x] and [x || y]. *)
Definition truthy (v : value) : bool :=
  match v with
  | VUndef | VNull => false
  | VBool b => b
  | VStr s => negb (s =? "")
  | VArr _ | VObj _ => true
  end.

(** [a || b] *)
Definition or_else (a b : value) : value := if truthy a then a else b.

(** [Array.prototype.join] over already converted elements. *)
Fixpoint join (sep : string) (l : list string) : string :=
  match l with
  | [] => ""
  | [s] => s
  | s :: rest => s ++ sep ++ join sep rest
  end.

(** *** Strings *)

(** White space removed by [String.prototype.trim], among code units < 256. *)
Definition is_space (c : ascii) : bool :=
  match N_of_ascii c with
  | 9 | 10 | 11 | 12 | 13 | 32 | 160 => true
  | _ => false
  end%N.

Fixpoint trim_start (s : string) : string :=
  match s with
  | EmptyString => EmptyString
  | String c rest => if is_space c then trim_start rest else s
  end.

Fixpoint trim_end (s : string) : string :=
  match s with
  | EmptyString => EmptyString
  | String c rest =>
      match trim_end rest with
      | EmptyString => if is_space c then EmptyString else String c EmptyString
      | t => String c t
      end
  end.

(** [s.trim()] *)
Definition trim (s : string) : string := trim_end (trim_start s).

(** *** Property keys and their order *)

Definition digit_of (c : ascii) : option N :=
  let n := N_of_ascii c in
  if ((48 <=? n) && (n <=? 57))%N then Some (n - 48)%N else None.

Fixpoint digits_value (s : string) (acc : N) : option N :=
  match s with
  | EmptyString => Some acc
  | String c rest =>
      match digit_of c with
      | Some d => digits_value rest (10 * acc + d)%N
      | None => None
      end
  end.

(** A key is an array index when it is the canonical decimal numeral of an
    integer below 2^32 - 1.  Such keys are enumerated first, in ascending
    numeric order; all other keys follow in insertion order. *)
Definition array_index (k : string) : option N :=
  match k with
  | EmptyString => None
  | String c rest =>
      if (c =? "0")%char then
        (if rest =? "" then Some 0%N else None)
      else
        match digits_value k 0 with
        | Some n => if (n <? 4294967295)%N then Some n else None
        | None => None
        end
  end.

Definition is_index (k : string) : bool :=
  match array_index k with Some _ => true | None => false end.

(** *** Objects *)

(** [o[k]] for a name that [Object.prototype] does not define: the own
    property, [undefined] when [o] has none of that name. *)
Fixpoint obj_get (o : obj) (k : string) : value :=
  match o with
  | [] => VUndef
  | (k', v) :: rest => if k' =? k then v else obj_get rest k
  end.

Fixpoint has_key (o : obj) (k : string) : bool :=
  match o with
  | [] => false
  | (k', _) :: rest => (k' =? k) || has_key rest k
  end.

Definition keys (o : obj) : list string := map fst o.

(** *** Conversion to a string *)

(** The values [ToString] accepts.  An object that has an own property
    [toString] is refused: the property is not callable (a document holds
    no functions), [valueOf] then answers with the object itself, and the
    conversion throws.  An array is joined, which converts every element
    that is not [null] or [undefined]. *)
Fixpoint printable (v : value) : bool :=
  match v with
  | VObj o => negb (has_key o "toString")
  | VArr items =>
      forallb (fun x => match x with
                        | VUndef | VNull => true
                        | _ => printable x
                        end) items
  | _ => true
  end.

(** The string of a value that [ToString] accepts. *)
Fixpoint text_of (v : value) : string :=
  match v with
  | VUndef => "undefined"
  | VNull => "null"
  | VBool true => "true"
  | VBool false => "false"
  | VStr s => s
  | VArr items =>
      join "," (map (fun x => match x with
                              | VUndef | VNull => ""
                              | _ => text_of x
                              end) items)
  | VObj _ => "[object Object]"
  end.

(** [ToString(v)]: what a template slot [${v}] contributes, or a
    [TypeError]. *)
Definition to_string (v : value) : option string :=
  if printable v then Some (text_of v) else None.


(** Overwrite the value of an existing property, keeping its place. *)
Fixpoint obj_replace (o : obj) (k : string) (v : value) : obj :=
  match o with
  | [] => []
  | (k', v') :: rest =>
      if k' =? k then (k', v) :: rest else (k', v') :: obj_replace rest k v
  end.

(** Place a new array-index property: after the index keys that are smaller,
    before everything else. *)
Fixpoint obj_insert_index (o : obj) (n : N) (k : string) (v : value) : obj :=
  match o with
  | [] => [(k, v)]
  | (k', v') :: rest =>
      match array_index k' with
      | Some m =>
          if (m <? n)%N then (k', v') :: obj_insert_index rest n k v
          else (k, v) :: o
      | None => (k, v) :: o
      end
  end.

(** [o[k] = v] on an ordinary object.  An own property is overwritten.
    Otherwise the name [__proto__] reaches the setter that [Object.prototype]
    has for it, and no property is created (the setter ignores a string and
    installs an object as the prototype, which leaves the own properties as
    they are); any other name becomes a new own property. *)
Definition obj_set (o : obj) (k : string) (v : value) : obj :=
  if has_key o k then obj_replace o k v
  else if k =? "__proto__" then o
  else
    match array_index k with
    | Some n => obj_insert_index o n k v
    | None => (o ++ [(k, v)])%list
    end.

(** [v[k]] for one of the fixed names the editor reads.  Reading a property
    of [null] or [undefined] throws; arrays, strings and booleans have no
    property of those names. *)
Definition prop (v : value) (k : string) : option value :=
  match v with
  | VUndef | VNull => None
  | VObj o => Some (obj_get o k)
  | VBool _ | VStr _ | VArr _ => Some VUndef
  end.

(** [typeof v !== 'object'] *)
Definition not_typeof_object (v : value) : bool :=
  match v with
  | VNull | VArr _ | VObj _ => false
  | VUndef | VBool _ | VStr _ => true
  end.

Definition index_key (i : nat) : string :=
  NilEmpty.string_of_uint (N.to_uint (N.of_nat i)).

Fixpoint indexed {A} (f : A -> value) (i : nat) (l : list A) : obj :=
  match l with
  | [] => []
  | x :: rest => (index_key i, f x) :: indexed f (S i) rest
  end.

(** [Object.entries(v)] for a truthy [v]. *)
Definition entries (v : value) : obj :=
  match v with
  | VObj o => o
  | VArr items => indexed (fun x => x) 0 items
  | VStr s =>
      indexed (fun c => VStr (String c EmptyString)) 0
        (list_ascii_of_string s)
  | VUndef | VNull | VBool _ => []
  end.

(** [JSON.parse(JSON.stringify(v))] on a value: properties holding
    [undefined] are dropped, [undefined] array elements become [null]. *)
Fixpoint deep_copy (v : value) : value :=
  match v with
  | VArr items =>
      VArr (map (fun x => match x with
                          | VUndef => VNull
                          | _ => deep_copy x
                          end) items)
  | VObj o =>
      VObj ((fix copy_props (ps : list (string * value))
               : list (string * value) :=
               match ps with
               | [] => []
               | (k, VUndef) :: rest => copy_props rest
               | (k, x) :: rest => (k, deep_copy x) :: copy_props rest
               end) o)
  | _ => v
  end.

(** The deep copy of a document. *)
Definition copy_obj (o : obj) : obj :=
  match deep_copy (VObj o) with
  | VObj o' => o'
  | _ => o
  end.

End Js.

(** ** The form: element trees and the queries the parser makes *)

Module Dom.

(** An element: tag, [id], class list, [data-key], its [value] and the
    child elements.  The elements whose [value] the parser reads are form
    controls, whose [value] is a string; the other elements of the templates
    are given the empty string, which nothing reads. *)
Inductive node : Type :=
| El (tag : string) (id : string) (classes : list string)
     (datakey : option string) (value : string) (children : list node).

Definition node_id (n : node) : string :=
  match n with El _ i _ _ _ _ => i end.
Definition node_classes (n : node) : list string :=
  match n with El _ _ c _ _ _ => c end.
Definition node_datakey (n : node) : option string :=
  match n with El _ _ _ d _ _ => d end.
Definition node_value (n : node) : string :=
  match n with El _ _ _ _ v _ => v end.
Definition node_children (n : node) : list node :=
  match n with El _ _ _ _ _ k => k end.

Definition has_class (c : string) (n : node) : bool :=
  existsb (String.eqb c) (node_classes n).

(** The element itself and its descendants, in document order. *)
Fixpoint subtree (n : node) : list node :=
  match n with
  | El _ _ _ _ _ kids => n :: flat_map subtree kids
  end.

(** The descendants of a container whose children are [kids]. *)
Definition descendants (kids : list node) : list node :=
  flat_map subtree kids.

(** [container.querySelectorAll('.' + c)] *)
Definition querySelectorAll (c : string) (kids : list node) : list node :=
  filter (has_class c) (descendants kids).

(** [container.querySelector('.' + c)] *)
Definition querySelector (c : string) (kids : list node) : option node :=
  hd_error (querySelectorAll c kids).

(** [document.getElementById(i)], for an id that only the form can hold. *)
Definition getElementById (i : string) (kids : list node) : option node :=
  find (fun n => node_id n =? i) (descendants kids).

(** Builders for the elements of the templates. *)
Definition div (classes : list string) (kids : list node) : node :=
  El "div" "" classes None "" kids.
Definition div_id (i : string) (kids : list node) : node :=
  El "div" i [] None "" kids.
Definition label : node := El "label" "" [] None "" [].
Definition span : node := El "span" "" [] None "" [].
Definition button (classes : list string) : node :=
  El "button" "" classes None "" [].
Definition input (classes : list string) (v : string) : node :=
  El "input" "" classes None v [].
Definition input_key (classes : list string) (k : string) (v : string) : node :=
  El "input" "" classes (Some k) v [].
Definition textarea (classes : list string) (v : string) : node :=
  El "textarea" "" classes None v [].
Definition textarea_id (i : string) (v : string) : node :=
  El "textarea" i [] None v [].

End Dom.

(** ** The editor: rendering a section into the form and reading it back *)

Module Editor.
Import Js Dom.

(** The two JSON built-ins the raw-text fallback relies on. *)
Class Json : Type := {
  (** [JSON.parse(text)]; [None] when it throws a [SyntaxError]. *)
  json_parse : string -> option value;
  (** The text of the slot [${JSON.stringify(v, null, 2)}]. *)
  json_text : value -> string
}.

Definition bind {A B} (a : option A) (f : A -> option B) : option B :=
  match a with
  | Some x => f x
  | None => None
  end.

Notation "'do' x <- a ; b" := (bind a (fun x => b))
  (at level 10, x name, a at level 100, b at level 200).

(** [l.forEach(f)] where [f] may throw: stops at the first failure. *)
Fixpoint traverse {A B} (f : A -> option B) (l : list A) : option (list B) :=
  match l with
  | [] => Some []
  | x :: rest =>
      do y <- f x;
      do ys <- traverse f rest;
      Some (y :: ys)
  end.

(** *** renderEditor *)

Definition summary_form (text : string) : list node :=
  [div ["edit-field"] [label; textarea_id "edit_summary_text" text]].

Definition render_summary (data : value) : option (list node) :=
  do text <- to_string (or_else data (VStr ""));
  Some (summary_form text).

(** The keys of the contact form, in the order of the [fields] table. *)
Definition contact_fields : list string :=
  ["location"; "email"; "phone"; "linkedin_url"; "portfolio_url"; "github"].

(** The value shown for one contact field: the strict key first, then the
    legacy alias of the two URL fields, then the empty string. *)
Definition contact_value (data : value) (key : string) : option value :=
  do val <- prop data key;
  do val <- (if negb (truthy val) && (key =? "linkedin_url")
             then prop data "linkedin" else Some val);
  do val <- (if negb (truthy val) && (key =? "portfolio_url")
             then prop data "portfolio" else Some val);
  Some (or_else val (VStr "")).

Definition contact_field (key val : string) : node :=
  div ["edit-field"] [label; input_key ["contact-input"] key val].

Definition contact_row (data : value) (key : string) : option node :=
  do val <- contact_value data key;
  do text <- to_string val;
  Some (contact_field key text).

Definition render_contact (data : value) : option (list node) :=
  let data := if not_typeof_object data
              then VObj [("location", or_else data (VStr ""))]
              else data in
  traverse (contact_row data) contact_fields.

Definition skill_block (category skills : string) : node :=
  div ["item-block"]
    [div [] [input ["skill-category-input"] category;
             button ["remove-btn"; "remove-category-btn"]];
     textarea ["skill-values-input"] skills].

Definition skill_row (entry : string * value) : option node :=
  do skills <- to_string (snd entry);
  Some (skill_block (fst entry) skills).

Definition render_skills (data : value) : option (list node) :=
  let data := if truthy data then data else VObj [] in
  do blocks <- traverse skill_row (entries data);
  Some [div_id "skillsList" blocks; button []].

Definition bullet_row (safeText : string) : node :=
  div ["bullet-item"]
    [textarea ["bullet-input"] safeText;
     button ["remove-btn"; "remove-bullet-btn"]].

(** [safeText]: the empty string for a falsy text, otherwise the text with
    its double quotes replaced by [&quot;].  A truthy text that is not a
    string has no [replace] method.  The quotes escaped here are decoded
    again when the markup is read, so the row holds the text itself. *)
Definition safe_text (text : value) : option string :=
  if truthy text
  then match text with VStr s => Some s | _ => None end
  else Some "".

(** [createBulletRow(text)] *)
Definition createBulletRow (text : value) : option node :=
  do safeText <- safe_text text;
  Some (bullet_row safeText).

(** [item.k1 || item.k2 || ... || ""] *)
Fixpoint alt (item : value) (ks : list string) : option value :=
  match ks with
  | [] => Some (VStr "")
  | k :: rest =>
      do v <- prop item k;
      if truthy v then Some v else alt item rest
  end.

Definition slot (item : value) (ks : list string) : option string :=
  do v <- alt item ks; to_string v.

Definition experience_header (company roleVal locVal dateVal : string) : node :=
  div [] [input ["item-company"] company;
          input ["item-role"] roleVal;
          input ["item-location"] locVal;
          input ["item-dates"] dateVal].

Definition leadership_header (orgVal roleVal locVal dateVal : string) : node :=
  div [] [input ["item-org"] orgVal;
          input ["item-role"] roleVal;
          input ["item-location"] locVal;
          input ["item-dates"] dateVal].

Definition project_header (name tech dateVal : string) : node :=
  div [] [input ["item-name"] name;
          input ["item-tech"] tech;
          input ["item-dates"] dateVal].

(** The header fields of an item block. *)
Definition item_header (item : value) (section : string) : option node :=
  if section =? "experience" then
    do roleVal <- slot item ["role"; "title"];
    do dateVal <- slot item ["dates"; "date"];
    do locVal <- slot item ["location"];
    do company <- slot item ["company"];
    Some (experience_header company roleVal locVal dateVal)
  else if section =? "leadership" then
    do orgVal <- slot item ["organization"];
    do roleVal <- slot item ["role"];
    do dateVal <- slot item ["dates"];
    do locVal <- slot item ["location"];
    Some (leadership_header orgVal roleVal locVal dateVal)
  else
    do dateVal <- slot item ["dates"; "date"];
    do name <- slot item ["name"];
    do tech <- slot item ["tech"];
    Some (project_header name tech dateVal).

Definition item_block (headerHtml : node) (bulletsHtml : list node) : node :=
  div ["item-block"]
    [div [] [span; button ["remove-btn"; "remove-item-btn"]];
     headerHtml;
     div ["edit-field"]
       [label;
        div ["bullet-list-container"] bulletsHtml;
        button ["add-bullet-btn"]]].

(** [renderItemBlock(container, item, section)]: the block appended to the
    container. *)
Definition renderItemBlock (item : value) (section : string) : option node :=
  do headerHtml <- item_header item section;
  do bullets <- prop item "bullets";
  do bulletsHtml <- (match bullets with
                     | VArr bs => traverse createBulletRow bs
                     | _ => Some []
                     end);
  Some (item_block headerHtml bulletsHtml).

Definition render_items (section : string) (data : value)
  : option (list node) :=
  let data := if truthy data then data else VArr [] in
  match data with
  | VArr items =>
      do blocks <- traverse (fun item => renderItemBlock item section) items;
      Some [div_id "itemsList" blocks; button []]
  | _ => None
  end.

Definition render_raw `{Json} (data : value) : list node :=
  [div ["edit-field"] [label; textarea_id "edit_raw_json" (json_text data)]].

Definition is_list_section (section : string) : bool :=
  (section =? "experience") || (section =? "projects")
  || (section =? "leadership").

(** The children [renderEditor(section, data)] gives the form container, or
    [None] when it throws: on a property of [null] or [undefined], on a
    method a value does not have, or on a value a template slot cannot
    convert to a string. *)
Definition render_view `{Json} (section : string) (data : value)
  : option (list node) :=
  if section =? "summary" then render_summary data
  else if section =? "contact" then render_contact data
  else if section =? "skills" then render_skills data
  else if is_list_section section then render_items section data
  else Some (render_raw data).

(** [renderEditor(section, data)] on the form container: the new container
    and whether the call returned normally.  An absent container is left
    alone; a call that throws has already emptied the container and has
    appended nothing to it yet. *)
Definition renderEditor `{Json} (section : string) (data : value)
    (formContainer : option (list node)) : option (list node) * bool :=
  match formContainer with
  | None => (None, true)
  | Some _ =>
      match render_view section data with
      | Some view => (Some view, true)
      | None => (Some [], false)
      end
  end.

(** *** The buttons of the form

    The click handlers the renderer attaches change the form only.  The two
    that bring in a template are given here; removing a block or a bullet
    row, adding an empty bullet row and typing are [edit_form] steps. *)

(** Append [child] to the element of the form whose id is [i]. *)
Definition append_child (i : string) (child : node) (form : list node)
  : list node :=
  map (fun n =>
         match n with
         | El tag id classes key v kids =>
             if id =? i then El tag id classes key v (kids ++ [child]) else n
         end) form.

(** A click on the button that adds a skill category. *)
Definition add_category (form : list node) : list node :=
  append_child "skillsList" (skill_block "New Category" "") form.

(** The template for a new item. *)
Definition newItem (section : string) : value :=
  if section =? "experience" then
    VObj [("company", VStr "New Company"); ("role", VStr "Role");
          ("location", VStr "Location"); ("dates", VStr "Present");
          ("bullets", VArr [VStr "New bullet"])]
  else if section =? "projects" then
    VObj [("name", VStr "New Project"); ("tech", VStr "Tech Stack");
          ("dates", VStr "2024"); ("bullets", VArr [VStr "New bullet"])]
  else if section =? "leadership" then
    VObj [("organization", VStr "Organization"); ("role", VStr "Role");
          ("location", VStr "Location"); ("dates", VStr "Dates");
          ("bullets", VArr [VStr "New bullet"])]
  else VObj [("bullets", VArr [VStr "New bullet"])].

(** A click on the button that adds an item to a list section. *)
Definition add_item (section : string) (form : list node) : list node :=
  match renderItemBlock (newItem section) section with
  | Some block => append_child "itemsList" block form
  | None => form
  end.

(** *** parseEditor *)

Definition parse_summary (form : list node) : value :=
  match getElementById "edit_summary_text" form with
  | Some el => VStr (node_value el)
  | None => VStr ""
  end.

(** [input.dataset.key] used as a property name. *)
Definition dataset_key (n : node) : string :=
  match node_datakey n with
  | Some k => k
  | None => "undefined"
  end.

Definition parse_contact (form : list node) : value :=
  VObj (fold_left
          (fun contactData input =>
             if negb (trim (node_value input) =? "")
             then obj_set contactData (dataset_key input)
                    (VStr (trim (node_value input)))
             else contactData)
          (querySelectorAll "contact-input" form) []).

Definition parse_skills (form : list node) : value :=
  VObj (fold_left
          (fun newSkills block =>
             match querySelector "skill-category-input" (node_children block),
                   querySelector "skill-values-input" (node_children block) with
             | Some catInput, Some valInput =>
                 obj_set newSkills (node_value catInput)
                   (VStr (node_value valInput))
             | _, _ => newSkills
             end)
          (querySelectorAll "item-block" form) []).

(** [getVal(sel)] inside one block. *)
Definition getVal (block : node) (sel : string) : value :=
  match querySelector sel (node_children block) with
  | Some el => VStr (node_value el)
  | None => VStr ""
  end.

Definition parse_bullets (block : node) : value :=
  VArr (map VStr
          (filter (fun t => negb (trim t =? ""))
             (map node_value
                (querySelectorAll "bullet-input" (node_children block))))).

Definition parse_item (section : string) (block : node) : value :=
  let item : obj := [] in
  let item :=
    if section =? "experience" then
      let item := obj_set item "company" (getVal block "item-company") in
      let item := obj_set item "role" (getVal block "item-role") in
      let item := obj_set item "dates" (getVal block "item-dates") in
      obj_set item "location" (getVal block "item-location")
    else if section =? "leadership" then
      let item := obj_set item "organization" (getVal block "item-org") in
      let item := obj_set item "role" (getVal block "item-role") in
      let item := obj_set item "dates" (getVal block "item-dates") in
      obj_set item "location" (getVal block "item-location")
    else
      let item := obj_set item "name" (getVal block "item-name") in
      let item := obj_set item "tech" (getVal block "item-tech") in
      obj_set item "dates" (getVal block "item-dates") in
  VObj (obj_set item "bullets" (parse_bullets block)).

Definition parse_items (section : string) (form : list node) : value :=
  VArr (map (parse_item section) (querySelectorAll "item-block" form)).

Definition parse_raw `{Json} (section : string) (form : list node)
    (currentEditingData : obj) : value :=
  match getElementById "edit_raw_json" form with
  | Some raw =>
      match json_parse (node_value raw) with
      | Some v => v
      | None => obj_get currentEditingData section
      end
  | None => obj_get currentEditingData section
  end.

(** [parseEditor(section)], reading the form container and, in the fallback
    branch, the document being edited. *)
Definition parseEditor `{Json} (section : string)
    (formContainer : option (list node)) (currentEditingData : obj) : value :=
  match formContainer with
  | None => VNull
  | Some form =>
      if section =? "summary" then parse_summary form
      else if section =? "contact" then parse_contact form
      else if section =? "skills" then parse_skills form
      else if is_list_section section then parse_items section form
      else parse_raw section form currentEditingData
  end.

(** *** The edit session *)

(** The keys of [chrome.storage.local] the popup uses. *)
Record store : Type := mkStore {
  lastViewUrl : value;
  lastStatus : value;
  lastCompany : value;
  lastResumeData : option obj;
  lastJdText : value;
  lastJobContext : value
}.

(** The body of a request to [/regenerate_pdf]. *)
Record request : Type := mkRequest {
  resume_data : obj;
  company_name : value;
  filename : string
}.

(** What the regeneration request comes back with. *)
Inductive response : Type :=
| NetworkFailure (message : string)   (* [fetch] rejects *)
| HttpFailure (statusText : string)   (* [!response.ok] *)
| BodyFailure (message : string)      (* [response.json()] rejects *)
| Body (data : value).                (* the decoded body *)

(** The variables of the popup script the editor reads and writes, and the
    parts of the page it touches. *)
Record state : Type := mkState {
  currentEditingData : option obj;      (* [null] or the local copy *)
  previousSection : option string;      (* [null] or a section name *)
  formContainer : option (list node);   (* [None]: no such element *)
  sectionSelect : string;               (* [sectionSelect.value] *)
  currentViewUrl : value;
  storage : store;
  editorUI : bool;                      (* displayed? *)
  actionsDiv : bool;                    (* displayed? *)
  statusDiv : string;                   (* [textContent] *)
  saveRegenBtn : bool * string;         (* [disabled], [textContent] *)
  alerts : list string;                 (* [alert] calls, oldest first *)
  tabs : list value;                    (* [chrome.tabs.create] calls *)
  requests : list request               (* regeneration requests sent *)
}.

Definition with_doc (d : option obj) (st : state) : state :=
  mkState d (previousSection st) (formContainer st) (sectionSelect st)
    (currentViewUrl st) (storage st) (editorUI st) (actionsDiv st)
    (statusDiv st) (saveRegenBtn st) (alerts st) (tabs st) (requests st).

Definition with_previous (p : option string) (st : state) : state :=
  mkState (currentEditingData st) p (formContainer st) (sectionSelect st)
    (currentViewUrl st) (storage st) (editorUI st) (actionsDiv st)
    (statusDiv st) (saveRegenBtn st) (alerts st) (tabs st) (requests st).

Definition with_form (f : option (list node)) (st : state) : state :=
  mkState (currentEditingData st) (previousSection st) f (sectionSelect st)
    (currentViewUrl st) (storage st) (editorUI st) (actionsDiv st)
    (statusDiv st) (saveRegenBtn st) (alerts st) (tabs st) (requests st).

Definition with_select (s : string) (st : state) : state :=
  mkState (currentEditingData st) (previousSection st) (formContainer st) s
    (currentViewUrl st) (storage st) (editorUI st) (actionsDiv st)
    (statusDiv st) (saveRegenBtn st) (alerts st) (tabs st) (requests st).

Definition with_view_url (u : value) (st : state) : state :=
  mkState (currentEditingData st) (previousSection st) (formContainer st)
    (sectionSelect st) u (storage st) (editorUI st) (actionsDiv st)
    (statusDiv st) (saveRegenBtn st) (alerts st) (tabs st) (requests st).

Definition with_storage (s : store) (st : state) : state :=
  mkState (currentEditingData st) (previousSection st) (formContainer st)
    (sectionSelect st) (currentViewUrl st) s (editorUI st) (actionsDiv st)
    (statusDiv st) (saveRegenBtn st) (alerts st) (tabs st) (requests st).

(** [editorUI.style.display] and [actionsDiv.style.display] *)
Definition with_display (editor actions : bool) (st : state) : state :=
  mkState (currentEditingData st) (previousSection st) (formContainer st)
    (sectionSelect st) (currentViewUrl st) (storage st) editor actions
    (statusDiv st) (saveRegenBtn st) (alerts st) (tabs st) (requests st).

Definition with_status (t : string) (st : state) : state :=
  mkState (currentEditingData st) (previousSection st) (formContainer st)
    (sectionSelect st) (currentViewUrl st) (storage st) (editorUI st)
    (actionsDiv st) t (saveRegenBtn st) (alerts st) (tabs st) (requests st).

Definition with_button (disabled : bool) (text : string) (st : state) : state :=
  mkState (currentEditingData st) (previousSection st) (formContainer st)
    (sectionSelect st) (currentViewUrl st) (storage st) (editorUI st)
    (actionsDiv st) (statusDiv st) (disabled, text) (alerts st) (tabs st)
    (requests st).

(** [alert(message)] *)
Definition alert (message : string) (st : state) : state :=
  mkState (currentEditingData st) (previousSection st) (formContainer st)
    (sectionSelect st) (currentViewUrl st) (storage st) (editorUI st)
    (actionsDiv st) (statusDiv st) (saveRegenBtn st)
    (alerts st ++ [message])%list (tabs st) (requests st).

(** [chrome.tabs.create({ url })] *)
Definition open_tab (url : value) (st : state) : state :=
  mkState (currentEditingData st) (previousSection st) (formContainer st)
    (sectionSelect st) (currentViewUrl st) (storage st) (editorUI st)
    (actionsDiv st) (statusDiv st) (saveRegenBtn st) (alerts st)
    (tabs st ++ [url])%list (requests st).

(** [fetch('/regenerate_pdf', { body })] is issued. *)
Definition send (r : request) (st : state) : state :=
  mkState (currentEditingData st) (previousSection st) (formContainer st)
    (sectionSelect st) (currentViewUrl st) (storage st) (editorUI st)
    (actionsDiv st) (statusDiv st) (saveRegenBtn st) (alerts st) (tabs st)
    (requests st ++ [r])%list.

(** [x !== null] *)
Definition not_null (v : value) : bool :=
  match v with
  | VNull => false
  | _ => true
  end.

(** [if (saved !== null) currentEditingData[section] = saved;] *)
Definition commit (doc : obj) (section : string) (saved : value) : obj :=
  if not_null saved then obj_set doc section saved else doc.

(** [if (previousSection)]: [null] and the empty string are falsy. *)
Definition tracked (p : option string) : option string :=
  match p with
  | Some a => if a =? "" then None else Some a
  | None => None
  end.

(** The [change] listener of the section selector. *)
Definition sectionSelect_change `{Json} (st : state) : state :=
  match currentEditingData st with
  | None => st
  | Some doc =>
      (* auto-save the previous section *)
      let doc :=
        match tracked (previousSection st) with
        | Some a => commit doc a (parseEditor a (formContainer st) doc)
        | None => doc
        end in
      let st := with_doc (Some doc) st in
      let section := sectionSelect st in
      let (form, returned) :=
        renderEditor section (obj_get doc section) (formContainer st) in
      let st := with_form form st in
      (* update the tracker *)
      if returned then with_previous (Some section) st else st
  end.

(** The user picks [section] in the selector, which fires [change]. *)
Definition select_section `{Json} (section : string) (st : state) : state :=
  sectionSelect_change (with_select section st).

(** The user works on the form: typing, adding and removing rows. *)
Definition edit_form (f : list node -> list node) (st : state) : state :=
  with_form (option_map f (formContainer st)) st.

(** The [click] listener of the edit button, up to the timer it arms. *)
Definition editBtn_click `{Json} (st : state) : state :=
  let loaded :=
    match currentEditingData st with
    | Some _ => Some st
    | None =>
        match lastResumeData (storage st) with
        | Some data => Some (with_doc (Some (copy_obj data)) st)
        | None => None
        end
    end in
  match loaded with
  | None => alert "No resume data found to edit." st
  | Some st =>
      let st := with_display true false st in
      (* trigger initial population *)
      sectionSelect_change st
  end.

(** The callback of the 100 ms timer armed on open. *)
Definition editBtn_timeout (st : state) : state :=
  with_previous (Some (sectionSelect st)) st.

(** The [click] listener of the cancel button. *)
Definition cancelEditBtn_click (st : state) : state :=
  with_display false true st.

(** The [click] listener of the save button, up to the request it sends
    (the read of [lastCompany] from storage comes back before any other
    listener runs). *)
Definition saveRegenBtn_click `{Json} (st : state) : state :=
  match currentEditingData st with
  | None => st
  | Some doc =>
      (* save the current section explicitly before regenerating *)
      let section := sectionSelect st in
      let currentData := parseEditor section (formContainer st) doc in
      let doc := commit doc section currentData in
      let st := with_doc (Some doc) st in
      let st := with_button true "Regenerating..." st in
      let st := with_status "Regenerating PDF..." st in
      let companyName :=
        or_else (lastCompany (storage st)) (VStr "Manual_Edit") in
      send (mkRequest doc companyName "Pranay_Saggar_Resume.pdf") st
  end.

(** [chrome.storage.local.set({ lastViewUrl, lastResumeData, lastStatus })] *)
Definition save_state (url : value) (doc : option obj) (status : string)
    (s : store) : store :=
  mkStore url (VStr status) (lastCompany s) doc (lastJdText s)
    (lastJobContext s).

(** The rest of the save listener, once the request has settled: the body of
    the [try] from the response on, the [catch] and the [finally]. *)
Definition saveRegenBtn_settle (r : response) (st : state) : state :=
  let st :=
    match r with
    | NetworkFailure message => alert ("Error: " ++ message) st
    | HttpFailure statusText =>
        alert ("Error: " ++ "Regeneration failed: " ++ statusText) st
    | BodyFailure message => alert ("Error: " ++ message) st
    | Body data =>
        match prop data "status", prop data "view_url" with
        | Some (VStr status), Some view_url =>
            if status =? "success" then
              (* update global state *)
              let st := with_view_url view_url st in
              (* save new state *)
              let st :=
                with_storage
                  (save_state view_url (currentEditingData st)
                     "Resume updated." (storage st)) st in
              let st := with_status "Resume updated successfully!" st in
              let st := with_display false true st in
              (* open new PDF *)
              open_tab view_url st
            else st
        | Some _, _ => st
        | None, _ =>
            alert "Error: Cannot read properties of null (reading 'status')" st
        end
    end in
  with_button false "Save & Regenerate" st.

End Editor.

(** ** A JSON instance for the worked examples

    Every theorem below holds for an arbitrary [Json] instance.  The examples
    need a concrete one: the printer follows [JSON.stringify(v, null, 2)]; the
    reader knows the scalar literals only, which is all the examples feed
    it besides malformed text. *)

Module SampleJson.
Import Js Editor.

Definition dquote : ascii := "034"%char.
Definition backslash : ascii := "092"%char.
Definition newline : string := String "010"%char EmptyString.

Definition hex_digit (n : N) : ascii :=
  ascii_of_N (if (n <? 10)%N then 48 + n else 87 + n)%N.

(** The escape of one code unit inside a JSON string. *)
Definition escape_char (c : ascii) : string :=
  let n := N_of_ascii c in
  let esc (x : ascii) := String backslash (String x EmptyString) in
  if (c =? dquote)%char then esc dquote
  else if (c =? backslash)%char then esc backslash
  else if (n =? 8)%N then esc "b"%char
  else if (n =? 9)%N then esc "t"%char
  else if (n =? 10)%N then esc "n"%char
  else if (n =? 12)%N then esc "f"%char
  else if (n =? 13)%N then esc "r"%char
  else if (n <? 32)%N then
    String backslash
      ("u00" ++ String (hex_digit (n / 16)) (String (hex_digit (n mod 16)) ""))
  else String c EmptyString.

Fixpoint escape (s : string) : string :=
  match s with
  | EmptyString => EmptyString
  | String c rest => escape_char c ++ escape rest
  end.

Definition quote (s : string) : string :=
  String dquote (escape s ++ String dquote EmptyString).

(** A value at nesting depth [indent] (the white space before its closing
    bracket). *)
Fixpoint stringify (indent : string) (v : value) : string :=
  let inner := indent ++ "  " in
  let sep := "," ++ newline ++ inner in
  match v with
  | VUndef | VNull => "null"
  | VBool true => "true"
  | VBool false => "false"
  | VStr s => quote s
  | VArr [] => "[]"
  | VArr items =>
      "[" ++ newline ++ inner ++ join sep (map (stringify inner) items)
      ++ newline ++ indent ++ "]"
  | VObj props =>
      let members :=
        (fix members (ps : list (string * value)) : list string :=
           match ps with
           | [] => []
           | (_, VUndef) :: rest => members rest
           | (k, x) :: rest =>
               (quote k ++ ": " ++ stringify inner x) :: members rest
           end) props in
      match members with
      | [] => "{}"
      | _ => "{" ++ newline ++ inner ++ join sep members
             ++ newline ++ indent ++ "}"
      end
  end.

Definition sample_text (v : value) : string :=
  match v with
  | VUndef => "undefined"
  | _ => stringify "" v
  end.

(** The white space of the JSON grammar. *)
Definition json_space (c : ascii) : bool :=
  match N_of_ascii c with
  | 9 | 10 | 13 | 32 => true
  | _ => false
  end%N.

Fixpoint skip_spaces (s : string) : string :=
  match s with
  | EmptyString => EmptyString
  | String c rest => if json_space c then skip_spaces rest else s
  end.

Fixpoint drop_spaces (s : string) : string :=
  match s with
  | EmptyString => EmptyString
  | String c rest =>
      match drop_spaces rest with
      | EmptyString =>
          if json_space c then EmptyString else String c EmptyString
      | t => String c t
      end
  end.

Definition sample_parse (text : string) : option value :=
  let t := drop_spaces (skip_spaces text) in
  if t =? "null" then Some VNull
  else if t =? "true" then Some (VBool true)
  else if t =? "false" then Some (VBool false)
  else if t =? "[]" then Some (VArr [])
  else if t =? "{}" then Some (VObj [])
  else None.

#[export] Instance sample_json : Json :=
  {| json_parse := sample_parse; json_text := sample_text |}.

End SampleJson.

(** ** Section shapes *)

Module Shapes.
Import Js Dom Editor.

(** The section types the editor has a form for. *)
Definition known_section (section : string) : bool :=
  (section =? "summary") || (section =? "contact") || (section =? "skills")
  || is_list_section section.

(** An assignment [o[k] = v] that leaves [k] an own property of [o]: every
    assignment but one to a [__proto__] that [o] does not own. *)
Definition assigns (o : obj) (k : string) : bool :=
  has_key o k || negb (k =? "__proto__").

(** A regeneration that did not succeed: the request failed, or the body
    does not carry the status [success]. *)
Definition failed (r : response) : bool :=
  match r with
  | Body (VObj o) =>
      match obj_get o "status" with
      | VStr status => negb (status =? "success")
      | _ => true
      end
  | _ => true
  end.

(** A header made from one of the three header templates. *)
Inductive is_header : node -> Prop :=
| header_experience c r l d : is_header (experience_header c r l d)
| header_leadership o r l d : is_header (leadership_header o r l d)
| header_project n t d : is_header (project_header n t d).

(** *** Canonical section values *)

(** Characters that the HTML parser does not take over as they are from a
    template that splices text in unescaped: the double quote, the
    ampersand and the angle brackets, which are markup; the line breaks,
    which it drops or rewrites; and the code unit 0, which it replaces. *)
Definition markup_char (c : ascii) : bool :=
  match N_of_ascii c with
  | 0 | 10 | 13 | 34 | 38 | 60 | 62 => true
  | _ => false
  end%N.

Fixpoint plain_text (s : string) : bool :=
  match s with
  | EmptyString => true
  | String c rest => negb (markup_char c) && plain_text rest
  end.


(** A form whose elements hold text free of markup characters: a form the
    browser builds as the templates denote it. *)
Definition plain_form (form : list node) : bool :=
  forallb (fun n => plain_text (node_value n)) (descendants form).

(** A value in which no object has a property named [toString]: every
    value inside it can be converted to a string. *)
Fixpoint deep_printable (v : value) : bool :=
  match v with
  | VObj o =>
      negb (has_key o "toString")
      && forallb (fun p => match p with (_, x) => deep_printable x end) o
  | VArr items => forallb deep_printable items
  | _ => true
  end.

Definition among (l : list string) (k : string) : bool :=
  existsb (String.eqb k) l.




(** The header fields of an entry of a list section. *)
Definition header_fields (section : string) : list string :=
  if section =? "experience" then ["company"; "role"; "location"; "dates"]
  else if section =? "leadership" then
    ["organization"; "role"; "location"; "dates"]
  else ["name"; "tech"; "dates"].



(** *** What a round trip may change *)

(** [t.trim().length > 0] *)
Definition nonblank (t : string) : bool := negb (trim t =? "").

Definition keeps (v : value) : bool :=
  match v with
  | VStr t => nonblank t
  | _ => true
  end.

(** An entry with the blank strings removed from its [bullets]. *)
Definition normal_entry (item : value) : value :=
  match item with
  | VObj e =>
      VObj (map (fun p =>
                   if fst p =? "bullets" then
                     (fst p,
                      match snd p with
                      | VArr bs => VArr (filter keeps bs)
                      | x => x
                      end)
                   else p) e)
  | x => x
  end.





(** Equality of section values up to the order of the keys of an object. *)
Definition same_object (a b : value) : Prop :=
  match a, b with
  | VObj o1, VObj o2 => forall k, obj_get o1 k = obj_get o2 k
  | _, _ => a = b
  end.


(** *** Reading a skills form *)

(** The category name and the skills text of every block that holds both
    inputs, in display order. *)
Definition skill_pairs (form : list node) : list (string * string) :=
  flat_map
    (fun block =>
       match querySelector "skill-category-input" (node_children block),
             querySelector "skill-values-input" (node_children block) with
       | Some catInput, Some valInput =>
           [(node_value catInput, node_value valInput)]
       | _, _ => []
       end)
    (querySelectorAll "item-block" form).

(** The pairs whose assignment makes a property: all but those named
    [__proto__]. *)
Definition assigning (pairs : list (string * string))
  : list (string * string) :=
  filter (fun p => negb (fst p =? "__proto__")) pairs.

(** [o[name] = text] for each pair in turn, starting from the empty object. *)
Definition assign_all (pairs : list (string * string)) : obj :=
  fold_left (fun o p => obj_set o (fst p) (VStr (snd p))) pairs [].

(** The skills text of the last pair named [c], [undefined] if there is none. *)
Definition last_value (pairs : list (string * string)) (c : string) : value :=
  fold_left (fun found p => if fst p =? c then VStr (snd p) else found)
    pairs VUndef.

(** The names of a list, each kept at its first occurrence. *)
Fixpoint distinct (l : list string) : list string :=
  match l with
  | [] => []
  | x :: rest => x :: filter (fun y => negb (x =? y)) (distinct rest)
  end.

(** The keys that are not array indices. *)
Definition named (l : list string) : list string :=
  filter (fun k => negb (is_index k)) l.

(** Array indices first, in ascending order from [bound] on, then keys that
    are not array indices. *)
Fixpoint index_ordered (bound : N) (l : list string) : bool :=
  match l with
  | [] => true
  | k :: rest =>
      match array_index k with
      | Some n => (bound <=? n)%N && index_ordered n rest
      | None => forallb (fun k' => negb (is_index k')) rest
      end
  end.

End Shapes.

(** ** Worked examples: a popup, a user and a server *)

Module Examples.
Import Js Dom Editor SampleJson.

(** The state once the popup has loaded and restored its last session; the
    editor is closed and the form container is empty.  The status line is
    set after the view URL and the actions; a stored status that does not
    convert to a string leaves it as it was, empty. *)
Definition popup_loaded (s : store) (section : string) : state :=
  if truthy (lastViewUrl s) then
    mkState None None (Some []) section (lastViewUrl s) s false true
      (match to_string
               (or_else (lastStatus s) (VStr "Restored previous session."))
       with
       | Some text => text
       | None => ""
       end)
      (false, "Save & Regenerate") [] [] []
  else
    mkState None None (Some []) section (VStr "") s false false ""
      (false, "Save & Regenerate") [] [] [].

(** The user types [text] into the control whose id is [i]. *)
Fixpoint type_into (i text : string) (n : node) : node :=
  match n with
  | El tag id classes key v kids =>
      El tag id classes key (if id =? i then text else v)
        (map (type_into i text) kids)
  end.

Definition a_view_url : value :=
  VStr "http://localhost:8000/view/Acme/42/Resume.pdf".

Definition a_document : obj :=
  [("summary", VStr "old");
   ("contact", VObj [("email", VStr "a@b.c")]);
   ("skills", VObj [("Languages", VStr "Python, Go")])].

Definition a_store : store :=
  mkStore a_view_url (VStr "Resume generated successfully!") (VStr "Acme")
    (Some a_document) (VStr "We are hiring") (VStr "https://jobs.example").

(** Open the editor on the summary, rewrite it, move on to the contact
    section, cancel, and open the editor again. *)
Definition opened : state :=
  editBtn_timeout (editBtn_click (popup_loaded a_store "summary")).
Definition typed : state :=
  edit_form (map (type_into "edit_summary_text" "new")) opened.
Definition moved : state := select_section "contact" typed.
Definition cancelled : state := cancelEditBtn_click moved.
Definition reopened : state := editBtn_click cancelled.

(** A form left over from a section with a raw-text field whose content
    is not JSON. *)
Definition broken_raw_form : list node :=
  [div ["edit-field"] [label; textarea_id "edit_raw_json" "{oops"]].

Definition editing_unknown : state :=
  mkState (Some (("education", VArr [VStr "MIT"]) :: a_document))
    (Some "education") (Some broken_raw_form) "summary" a_view_url a_store
    true false "" (false, "Save & Regenerate") [] [] [].

(** The answer of a server that regenerated the document. *)
Definition a_success : value :=
  VObj [("status", VStr "success");
        ("view_url", VStr "http://localhost:8000/view/Acme/42/Edited.pdf")].

(** An experience entry of the legacy shape: [title] and [date], no [role]. *)
Definition a_legacy_job : value :=
  VObj [("company", VStr "Acme"); ("title", VStr "Engineer");
        ("date", VStr "2020 - 2022");
        ("bullets", VArr [VStr ""; VStr "Led a team of 5"])].

(** A leadership entry that names its role under [title]. *)
Definition a_titled_lead : value :=
  VObj [("organization", VStr "Chess Club"); ("title", VStr "President");
        ("bullets", VArr [VStr "Ran the weekly meetings"])].

(** A skills form in which the user has renamed the first category to the
    name of the second. *)
Definition a_renamed_skills_form : list node :=
  [div_id "skillsList"
     [skill_block "Tools" "Python, Go"; skill_block "Tools" "Docker"];
   button []].


(** A skills form in which the user has named a category [__proto__]. *)
Definition a_proto_skills_form : list node :=
  [div_id "skillsList"
     [skill_block "Tools" "Docker"; skill_block "__proto__" "Python, Go"];
   button []].

(** A skills form in which a category is named by a year. *)
Definition a_numbered_skills_form : list node :=
  [div_id "skillsList"
     [skill_block "Tools" "Docker"; skill_block "2024" "Python, Go"];
   button []].

(** A form of an unknown section whose raw text is the literal [null]. *)
Definition null_raw_form : list node :=
  [div ["edit-field"] [label; textarea_id "edit_raw_json" "null"]].

(** A contact section whose keys are not in the order of the form. *)
Definition a_reordered_contact : value :=
  VObj [("email", VStr "a@b.c"); ("location", VStr "Boston")].



End Examples.

(** ** More of the popup: edge values, events, preview and the copy panel *)

From Stdlib Require Import PeanoNat.

Module Popup.
Import Js Dom Editor Shapes.

(** *** Values at the edges *)

(** What the parser reads from an empty form. *)
Definition empty_value (section : string) : value :=
  if section =? "summary" then VStr ""
  else if (section =? "contact") || (section =? "skills") then VObj []
  else VArr [].

(** A value that [JSON.stringify] and [JSON.parse] carry over unchanged:
    no [undefined] anywhere inside. *)
Fixpoint is_json (v : value) : bool :=
  match v with
  | VUndef => false
  | VArr items => forallb is_json items
  | VObj o => forallb (fun p => match p with (_, x) => is_json x end) o
  | _ => true
  end.

(** The contact data after the raw string case has been handled. *)
Definition contact_data (data : value) : value :=
  if not_typeof_object data
  then VObj [("location", or_else data (VStr ""))]
  else data.

(** The text the contact form shows for [key], when the form is made. *)
Definition shown_contact (data : value) (key : string) : string :=
  match contact_value (contact_data data) key with
  | Some val => text_of val
  | None => ""
  end.

(** The keys of a parsed entry, in the order the parser assigns them. *)
Definition parsed_keys (section : string) : list string :=
  if section =? "experience" then
    ["company"; "role"; "dates"; "location"; "bullets"]
  else if section =? "leadership" then
    ["organization"; "role"; "dates"; "location"; "bullets"]
  else ["name"; "tech"; "dates"; "bullets"].




(** *** The preview button *)

(** The [click] listener of the preview button. *)
Definition previewBtn_click (st : state) : state :=
  if truthy (currentViewUrl st) then open_tab (currentViewUrl st) st else st.

(** *** Runs of the edit session *)

(** What can happen to the session: the listeners, the timer armed on
    open, the answer to a regeneration request and the user's work on the
    form. *)
Inductive event : Type :=
| Open
| OpenTimeout
| Select (section : string)
| EditForm (f : list node -> list node)
| Cancel
| Save
| Settle (r : response)
| Preview.

Definition step `{Json} (e : event) (st : state) : state :=
  match e with
  | Open => editBtn_click st
  | OpenTimeout => editBtn_timeout st
  | Select section => select_section section st
  | EditForm f => edit_form f st
  | Cancel => cancelEditBtn_click st
  | Save => saveRegenBtn_click st
  | Settle r => saveRegenBtn_settle r st
  | Preview => previewBtn_click st
  end.

Definition run `{Json} (trace : list event) (st : state) : state :=
  fold_left (fun st e => step e st) trace st.

(** The answer to a regeneration that succeeded. *)
Definition succeeds (e : event) : bool :=
  match e with
  | Settle r => negb (failed r)
  | _ => false
  end.

(** *** The copy panel *)

(** What [renderCopyUI] appends to the copy list: the header of a section
    and one card per item.  A card shows a title, a subtitle and the bullets
    joined by spaces; its button carries the type and the index of the item
    ([data-index] holds the index as text, kept here as the number it
    denotes). *)
Inductive copy_node : Type :=
| CopyHeader (title : string)
| CopyCard (titleText subtitleText : string) (type : string) (index : nat)
    (preview : string).

(** [v.join(sep)]; only an array has the method, which converts every
    element that is not [null] or [undefined]. *)
Definition array_join (sep : string) (v : value) : option string :=
  match v with
  | VArr items =>
      do texts <- traverse (fun x => match x with
                                     | VUndef | VNull => Some ""
                                     | _ => to_string x
                                     end) items;
      Some (join sep texts)
  | _ => None
  end.

(** [v[i]] for an index [i]. *)
Definition element (v : value) (i : nat) : option value :=
  match v with
  | VUndef | VNull => None
  | VArr items => Some (nth i items VUndef)
  | VStr s =>
      Some (match String.get i s with
            | Some c => VStr (String c EmptyString)
            | None => VUndef
            end)
  | VObj o => Some (obj_get o (index_key i))
  | VBool _ => Some VUndef
  end.

(** The title and the subtitle of a card. *)
Definition copy_titles (type : string) (item : value)
  : option (string * string) :=
  if type =? "experience" then
    do company <- prop item "company";
    do role <- prop item "role";
    do title <- prop item "title";
    do titleText <- to_string (or_else company (VStr "Company"));
    do subtitleText <- to_string (or_else (or_else role title) (VStr "Role"));
    Some (titleText, subtitleText)
  else if type =? "project" then
    do name <- prop item "name";
    do tech <- prop item "tech";
    do titleText <- to_string (or_else name (VStr "Project"));
    do subtitleText <- to_string (or_else tech (VStr ""));
    Some (titleText, subtitleText)
  else Some ("", "").

(** The card of one item. *)
Definition copy_card (type : string) (index : nat) (item : value)
  : option copy_node :=
  do titles <- copy_titles type item;
  do bullets <- prop item "bullets";
  do preview <- array_join " " (or_else bullets (VArr []));
  Some (CopyCard (fst titles) (snd titles) type index preview).

(** [items.forEach((item, index) => ...)] from [index] on: the list with
    the cards appended, and whether the loop ran to its end. *)
Fixpoint append_cards (type : string) (index : nat) (items : list value)
    (shown : list copy_node) : list copy_node * bool :=
  match items with
  | [] => (shown, true)
  | item :: rest =>
      match copy_card type index item with
      | Some card => append_cards type (S index) rest (shown ++ [card])%list
      | None => (shown, false)
      end
  end.

(** [createSection(title, items, type)] *)
Definition createSection (title : string) (items : value) (type : string)
    (shown : list copy_node) : list copy_node * bool :=
  if negb (truthy items) then (shown, true)
  else
    match items with
    | VArr [] => (shown, true)
    | VArr l => append_cards type 0 l (shown ++ [CopyHeader title])%list
    | _ => ((shown ++ [CopyHeader title])%list, false)
    end.

(** [renderCopyUI(data)] up to the listeners: the copy list, and whether
    the call got as far as attaching the listeners. *)
Definition renderCopyUI (data : obj) : list copy_node * bool :=
  let (shown, returned) :=
    createSection "Experience" (obj_get data "experience") "experience" [] in
  if returned
  then createSection "Projects" (obj_get data "projects") "project" shown
  else (shown, false).

(** The text put before each bullet: what the source holds between the
    backquote and the slot.  It holds a character above 255 there, so it is
    given as the bytes of the source file. *)
Definition bullet_mark : string :=
  String "226" (String "128" (String "154" (String "195" (String "132"
    (String "194" (String "162" " ")))))).

Definition line_feed : string := String "010" EmptyString.

(** The text a button copies for its item. *)
Definition item_text (item : value) : option string :=
  do bullets <- prop item "bullets";
  if truthy bullets then
    match bullets with
    | VArr bs =>
        do lines <- traverse (fun b => do text <- to_string b;
                                       Some (bullet_mark ++ text)) bs;
        Some (join line_feed lines)
    | _ => None
    end
  else Some "".

(** [textToCopy], as the listener of a button computes it. *)
Definition copy_text (data : obj) (type : string) (index : nat)
  : option string :=
  if type =? "experience" then
    do item <- element (obj_get data "experience") index;
    item_text item
  else if type =? "project" then
    do item <- element (obj_get data "projects") index;
    item_text item
  else Some "".

(** The key of the document a card of [type] reads its item from. *)
Definition section_of (type : string) : string :=
  if type =? "experience" then "experience" else "projects".



(** A copy list whose texts are free of markup characters. *)
Definition plain_panel (shown : list copy_node) : bool :=
  forallb (fun c => match c with
                    | CopyHeader title => plain_text title
                    | CopyCard t s _ _ preview =>
                        plain_text t && plain_text s && plain_text preview
                    end) shown.

(** The page around the session: the copy panel and the clipboard. *)
Record page : Type := mkPage {
  session : state;
  copyUI : bool;                      (* displayed? *)
  copyList : list copy_node;
  copy_data : option obj;             (* the data the buttons copy from;
                                         [None]: no listener attached *)
  clipboard : list string             (* [writeText] calls, oldest first *)
}.

(** The [click] listener of the copy-content button. *)
Definition copyContentBtn_click (p : page) : page :=
  match lastResumeData (storage (session p)) with
  | Some dataToCopy =>
      let (shown, returned) := renderCopyUI dataToCopy in
      mkPage (with_display (editorUI (session p)) false (session p)) true shown
        (if returned then Some dataToCopy else None) (clipboard p)
  | None =>
      mkPage (alert "No resume data found." (session p)) (copyUI p)
        (copyList p) (copy_data p) (clipboard p)
  end.

(** The [click] listener of the button that closes the copy panel. *)
Definition closeCopyBtn_click (p : page) : page :=
  mkPage (with_display (editorUI (session p)) true (session p)) false
    (copyList p) (copy_data p) (clipboard p).

(** The [click] listener of the button of the [n]-th element of the copy
    list (the feedback shown on the button is not kept). *)
Definition copyBtn_click (n : nat) (p : page) : page :=
  match copy_data p, nth_error (copyList p) n with
  | Some data, Some (CopyCard _ _ type index _) =>
      match copy_text data type index with
      | Some text =>
          if text =? "" then p
          else mkPage (session p) (copyUI p) (copyList p) (copy_data p)
                 (clipboard p ++ [text])%list
      | None => p
      end
  | _, _ => p
  end.

End Popup.

(** ** More worked examples *)

Module Scenarios.
Import Js Dom Editor SampleJson Examples Popup.



(** A session in which nothing is saved with success: open, rewrite the
    summary, move on, cancel, open again, save, and the server is down. *)
Definition a_failing_session : list event :=
  [Open; OpenTimeout;
   EditForm (map (type_into "edit_summary_text" "new"));
   Select "contact"; Cancel; Preview; Open; Save;
   Settle (NetworkFailure "Failed to fetch")].

(** A document with one job and one project. *)
Definition a_resume : obj :=
  [("experience",
    VArr [VObj [("company", VStr "Acme"); ("title", VStr "Engineer");
                ("bullets", VArr [VStr "Led a team of 5";
                                  VStr "Shipped the editor"])]]);
   ("projects",
    VArr [VObj [("name", VStr "Resume tool"); ("tech", VStr "Python");
                ("bullets", VArr [VStr "Parsed job posts"])]])].

(** The popup with that document in the store. *)
Definition a_page : page :=
  mkPage
    (popup_loaded
       (mkStore a_view_url (VStr "Resume generated successfully!")
          (VStr "Acme") (Some a_resume) (VStr "") (VStr ""))
       "summary")
    false [] None [].



End Scenarios.

(** ** Facts about objects *)

Section ObjectFacts.
Import Js Shapes.

Lemma eqb_false_of_neq (a b : string) : a <> b -> (a =? b) = false.
Proof. intro Hne. now apply String.eqb_neq. Qed.

Lemma has_key_In (o : obj) (k : string) :
  has_key o k = true <-> In k (keys o).
Proof.
  induction o as [|[k' v'] rest IH]; simpl.
  - split; [discriminate | tauto].
  - rewrite orb_true_iff, IH, String.eqb_eq. tauto.
Qed.

Lemma obj_get_absent (o : obj) (k : string) :
  has_key o k = false -> obj_get o k = VUndef.
Proof.
  induction o as [|[k' v'] rest IH]; simpl; intro Hk.
  - reflexivity.
  - apply orb_false_iff in Hk as [Hne Hrest].
    rewrite Hne. now apply IH.
Qed.

Lemma obj_get_app (o1 o2 : obj) (k : string) :
  obj_get (o1 ++ o2) k = if has_key o1 k then obj_get o1 k else obj_get o2 k.
Proof.
  induction o1 as [|[k' v'] rest IH]; simpl.
  - reflexivity.
  - destruct (k' =? k); simpl; [reflexivity | exact IH].
Qed.

Lemma obj_get_replace (o : obj) (k k' : string) (v : value) :
  has_key o k = true ->
  obj_get (obj_replace o k v) k' = if k =? k' then v else obj_get o k'.
Proof.
  induction o as [|[k0 v0] rest IH]; simpl; intro Hk.
  - discriminate.
  - destruct (String.eqb_spec k0 k) as [->|Hne]; simpl.
    + destruct (k =? k'); reflexivity.
    + destruct (String.eqb_spec k0 k') as [->|Hne'].
      * now rewrite (eqb_false_of_neq k k') by congruence.
      * apply IH. exact Hk.
Qed.

Lemma obj_get_insert_index (o : obj) (n : N) (k k' : string) (v : value) :
  has_key o k = false ->
  obj_get (obj_insert_index o n k v) k' = if k =? k' then v else obj_get o k'.
Proof.
  induction o as [|[k0 v0] rest IH]; simpl; intro Hk.
  - reflexivity.
  - apply orb_false_iff in Hk as [Hne Hrest].
    destruct (array_index k0) as [m|]; [destruct (m <? n)%N|]; simpl;
      try reflexivity.
    rewrite (IH Hrest).
    destruct (String.eqb_spec k0 k') as [->|Hne'].
    + rewrite String.eqb_sym in Hne. now rewrite Hne.
    + reflexivity.
Qed.

(** Reading back after [o[k] = v]. *)
Lemma obj_get_set (o : obj) (k k' : string) (v : value) :
  obj_get (obj_set o k v) k'
  = if assigns o k && (k =? k') then v else obj_get o k'.
Proof.
  unfold obj_set, assigns. destruct (has_key o k) eqn:Hk; simpl.
  - now apply obj_get_replace.
  - destruct (k =? "__proto__"); simpl; [reflexivity|].
    destruct (array_index k) as [n|].
    + now apply obj_get_insert_index.
    + rewrite obj_get_app. simpl.
      destruct (String.eqb_spec k k') as [<-|Hne].
      * now rewrite Hk.
      * destruct (has_key o k') eqn:Hk'; [reflexivity|].
        symmetry. now apply obj_get_absent.
Qed.

Lemma obj_get_set_same (o : obj) (k : string) (v : value) :
  assigns o k = true -> obj_get (obj_set o k v) k = v.
Proof. intros Hk. now rewrite obj_get_set, Hk, String.eqb_refl. Qed.

Lemma obj_get_set_other (o : obj) (k k' : string) (v : value) :
  k <> k' -> obj_get (obj_set o k v) k' = obj_get o k'.
Proof.
  intro Hne. rewrite obj_get_set, eqb_false_of_neq by exact Hne.
  now rewrite andb_false_r.
Qed.

(** Writing back what was read changes no lookup. *)
Lemma obj_get_set_id (o : obj) (k k' : string) :
  obj_get (obj_set o k (obj_get o k)) k' = obj_get o k'.
Proof.
  rewrite obj_get_set.
  destruct (assigns o k); simpl; [|reflexivity].
  destruct (String.eqb_spec k k') as [->|]; reflexivity.
Qed.

(** A name other than [__proto__] is always assigned. *)
Lemma assigns_named (o : obj) (k : string) :
  k <> "__proto__" -> assigns o k = true.
Proof.
  intros Hk. unfold assigns. rewrite (eqb_false_of_neq _ _ Hk).
  apply orb_true_r.
Qed.

End ObjectFacts.

(** ** The edit session *)

Section Session.
Import Js Dom Editor Shapes.
Context `{Json}.

Lemma tracked_nonempty (a : string) : a <> "" -> tracked (Some a) = Some a.
Proof.
  intro Hne. unfold tracked. now rewrite eqb_false_of_neq.
Qed.

Lemma known_section_nonempty (a : string) : known_section a = true -> a <> "".
Proof. intros Hk ->. discriminate. Qed.

(** A commit changes the committed key only. *)
Lemma commit_other (doc : obj) (a k : string) (saved : value) :
  k <> a -> obj_get (commit doc a saved) k = obj_get doc k.
Proof.
  intro Hne. unfold commit. destruct (not_null saved); [|reflexivity].
  apply obj_get_set_other. congruence.
Qed.

Lemma commit_same (doc : obj) (a : string) (saved : value) :
  saved <> VNull -> assigns doc a = true ->
  obj_get (commit doc a saved) a = saved.
Proof.
  intros Hs Ha. unfold commit.
  destruct saved; try congruence; simpl; now apply obj_get_set_same.
Qed.

Lemma commit_not_null (doc : obj) (a : string) (saved : value) :
  saved <> VNull -> commit doc a saved = obj_set doc a saved.
Proof.
  intros Hs. unfold commit.
  destruct saved; simpl; try reflexivity; congruence.
Qed.

(** The name of a section the editor has a form for is always assigned. *)
Lemma known_assigns (doc : obj) (a : string) :
  known_section a = true -> assigns doc a = true.
Proof. intros Hk. apply assigns_named. intros ->. discriminate. Qed.

Lemma commit_null (doc : obj) (a : string) : commit doc a VNull = doc.
Proof. reflexivity. Qed.

(** Committing the value the document already holds changes no lookup. *)
Lemma commit_id (doc : obj) (a k : string) :
  obj_get (commit doc a (obj_get doc a)) k = obj_get doc k.
Proof.
  unfold commit. destruct (not_null (obj_get doc a)); [|reflexivity].
  apply obj_get_set_id.
Qed.

(** The section change listener, spelled out for an open session that
    tracks section [a]. *)
Lemma sectionSelect_change_tracked (st : state) (doc : obj) (a : string) :
  currentEditingData st = Some doc ->
  tracked (previousSection st) = Some a ->
  let doc' := commit doc a (parseEditor a (formContainer st) doc) in
  let r := renderEditor (sectionSelect st) (obj_get doc' (sectionSelect st))
             (formContainer st) in
  sectionSelect_change st =
    (if snd r
     then with_previous (Some (sectionSelect st))
            (with_form (fst r) (with_doc (Some doc') st))
     else with_form (fst r) (with_doc (Some doc') st)).
Proof.
  intros Hdoc Hprev. unfold sectionSelect_change.
  rewrite Hdoc, Hprev. simpl.
  destruct (renderEditor _ _ _) as [form returned]. reflexivity.
Qed.

Lemma sectionSelect_change_untracked (st : state) (doc : obj) :
  currentEditingData st = Some doc ->
  tracked (previousSection st) = None ->
  let r := renderEditor (sectionSelect st) (obj_get doc (sectionSelect st))
             (formContainer st) in
  sectionSelect_change st =
    (if snd r
     then with_previous (Some (sectionSelect st))
            (with_form (fst r) (with_doc (Some doc) st))
     else with_form (fst r) (with_doc (Some doc) st)).
Proof.
  intros Hdoc Hprev. unfold sectionSelect_change.
  rewrite Hdoc, Hprev. simpl.
  destruct (renderEditor _ _ _) as [form returned]. reflexivity.
Qed.


(** *** Cancel *)

(** C3, as the code has it. Cancelling hides the editor and shows the
    actions again; it commits nothing and leaves the persisted snapshot, the
    artifact reference, the form and the in-memory document as they are.  A
    later open therefore works on that same in-memory document: storage is
    not read again, and every section other than the tracked one still
    holds what it held when the session was cancelled. *)
Theorem cancel_keeps_document (st : state) :
  let st' := cancelEditBtn_click st in
  currentEditingData st' = currentEditingData st
  /\ storage st' = storage st
  /\ currentViewUrl st' = currentViewUrl st
  /\ formContainer st' = formContainer st
  /\ previousSection st' = previousSection st
  /\ editorUI st' = false
  /\ actionsDiv st' = true
  /\ (forall doc, currentEditingData st = Some doc ->
      exists doc',
        currentEditingData (editBtn_click st') = Some doc'
        /\ storage (editBtn_click st') = storage st
        /\ forall k, previousSection st <> Some k ->
                     obj_get doc' k = obj_get doc k).
Proof.
  simpl. repeat split.
  intros doc Hdoc. unfold editBtn_click. simpl. rewrite Hdoc.
  set (st1 := with_display true false (cancelEditBtn_click st)).
  destruct (tracked (previousSection st)) as [a|] eqn:Ha.
  - exists (commit doc a (parseEditor a (formContainer st) doc)).
    rewrite (sectionSelect_change_tracked st1 doc a Hdoc Ha). simpl.
    destruct (snd _); simpl; repeat split; intros k Hk; apply commit_other;
      intros ->; apply Hk; unfold tracked in Ha;
      destruct (previousSection st) as [p|]; try discriminate;
      destruct (p =? ""); congruence.
  - exists doc.
    rewrite (sectionSelect_change_untracked st1 doc Hdoc Ha). simpl.
    destruct (snd _); simpl; repeat split.
Qed.

(** *** Save and regenerate *)

Lemma saveRegenBtn_click_doc (st : state) (doc : obj) :
  currentEditingData st = Some doc ->
  let section := sectionSelect st in
  currentEditingData (saveRegenBtn_click st)
  = Some (commit doc section (parseEditor section (formContainer st) doc))
  /\ storage (saveRegenBtn_click st) = storage st
  /\ currentViewUrl (saveRegenBtn_click st) = currentViewUrl st
  /\ editorUI (saveRegenBtn_click st) = editorUI st.
Proof.
  intros Hdoc. unfold saveRegenBtn_click. rewrite Hdoc. simpl.
  repeat split.
Qed.

(** Whatever happened since the click, a successful answer persists the
    in-memory document as it is when the answer arrives. *)
Lemma settle_success_stores_document (st : state) (data url : value) :
  prop data "status" = Some (VStr "success") ->
  prop data "view_url" = Some url ->
  lastResumeData (storage (saveRegenBtn_settle (Body data) st))
  = currentEditingData st
  /\ currentEditingData (saveRegenBtn_settle (Body data) st)
    = currentEditingData st.
Proof.
  intros Hstatus Hurl. unfold saveRegenBtn_settle.
  rewrite Hstatus, Hurl. simpl. split; reflexivity.
Qed.

(** C4. When the regeneration answers with status [success], the persisted
    snapshot becomes the whole in-session document (the active section
    committed, every other section as the session held it), and the keys
    written are [lastViewUrl], [lastResumeData] and [lastStatus]; the other
    keys keep their values. *)
Theorem save_success_persists (st : state) (doc : obj) (data url : value) :
  currentEditingData st = Some doc ->
  prop data "status" = Some (VStr "success") ->
  prop data "view_url" = Some url ->
  let section := sectionSelect st in
  let saved :=
    commit doc section (parseEditor section (formContainer st) doc) in
  let st' := saveRegenBtn_settle (Body data) (saveRegenBtn_click st) in
  storage st'
  = mkStore url (VStr "Resume updated.") (lastCompany (storage st))
      (Some saved) (lastJdText (storage st)) (lastJobContext (storage st))
  /\ currentEditingData st' = Some saved
  /\ (forall k, k <> section -> obj_get saved k = obj_get doc k)
  /\ currentViewUrl st' = url
  /\ editorUI st' = false.
Proof.
  intros Hdoc Hstatus Hurl section saved st'.
  destruct (saveRegenBtn_click_doc st doc Hdoc) as (Hd & Hs & _ & _).
  fold section in Hd. fold saved in Hd.
  unfold st', saveRegenBtn_settle. rewrite Hstatus, Hurl. simpl.
  rewrite Hd, Hs. repeat split.
  intros k Hk. now apply commit_other.
Qed.

Lemma save_failure_frame (r : response) (st : state) :
  failed r = true ->
  let st' := saveRegenBtn_settle r st in
  storage st' = storage st
  /\ currentViewUrl st' = currentViewUrl st
  /\ currentEditingData st' = currentEditingData st
  /\ editorUI st' = editorUI st
  /\ formContainer st' = formContainer st
  /\ previousSection st' = previousSection st.
Proof.
  intros Hf. unfold saveRegenBtn_settle.
  destruct r as [m|t|m|data]; simpl; try (repeat split).
  all: destruct data as [| |b|s|items|o]; simpl in *; try reflexivity.
  all: destruct (obj_get o "status") as [| |b|status|items|o']; simpl;
    try reflexivity.
  all: destruct (status =? "success"); simpl in *; try discriminate;
    reflexivity.
Qed.

(** A request that fails before a body is decoded is reported. *)
Lemma save_failure_alerted (st : state) (message : string) :
  alerts (saveRegenBtn_settle (NetworkFailure message) st)
  = (alerts st ++ [("Error: " ++ message)%string])%list
  /\ alerts (saveRegenBtn_settle (HttpFailure message) st)
    = (alerts st ++ [("Error: Regeneration failed: " ++ message)%string])%list
  /\ alerts (saveRegenBtn_settle (BodyFailure message) st)
    = (alerts st ++ [("Error: " ++ message)%string])%list.
Proof. repeat split. Qed.

(** C5, at the input where the code departs from it: the server answers
    with a body whose status is not [success].  Nothing is persisted and the
    session stays as it was, but nothing is reported either: no alert is
    raised and the status line is not touched. *)
Theorem save_rejected_silently (st : state) :
  let st' := saveRegenBtn_settle (Body (VObj [("status", VStr "error")])) st in
  alerts st' = alerts st
  /\ statusDiv st' = statusDiv st
  /\ storage st' = storage st
  /\ currentViewUrl st' = currentViewUrl st
  /\ currentEditingData st' = currentEditingData st
  /\ editorUI st' = editorUI st.
Proof. repeat split. Qed.

(** *** The raw-text fallback *)

(** C6. For a section type the editor has no form for, a raw text that
    does not deserialize makes [parseEditor] return the value the document
    already holds; committing it, on navigation or on save, changes no
    lookup of the document, and no alert is raised. *)
Theorem unknown_parse_fails_closed (st : state) (doc : obj) (a : string)
    (form : list node) (raw : node) :
  known_section a = false ->
  a <> "" ->
  currentEditingData st = Some doc ->
  formContainer st = Some form ->
  getElementById "edit_raw_json" form = Some raw ->
  json_parse (node_value raw) = None ->
  parseEditor a (Some form) doc = obj_get doc a
  /\ (previousSection st = Some a ->
      exists doc',
        currentEditingData (sectionSelect_change st) = Some doc'
        /\ (forall k, obj_get doc' k = obj_get doc k)
        /\ alerts (sectionSelect_change st) = alerts st)
  /\ (sectionSelect st = a ->
      exists doc',
        currentEditingData (saveRegenBtn_click st) = Some doc'
        /\ (forall k, obj_get doc' k = obj_get doc k)
        /\ alerts (saveRegenBtn_click st) = alerts st).
Proof.
  intros Hunknown Hne Hdoc Hform Hraw Hparse.
  assert (Hp : parseEditor a (Some form) doc = obj_get doc a).
  { unfold parseEditor, known_section in *.
    apply orb_false_iff in Hunknown as [Hunknown Hlist].
    apply orb_false_iff in Hunknown as [Hunknown Hskills].
    apply orb_false_iff in Hunknown as [Hsummary Hcontact].
    rewrite Hsummary, Hcontact, Hskills, Hlist.
    unfold parse_raw. now rewrite Hraw, Hparse. }
  split; [exact Hp|]. split.
  - intros Hprev. exists (commit doc a (obj_get doc a)).
    rewrite (sectionSelect_change_tracked st doc a Hdoc)
      by (rewrite Hprev; now apply tracked_nonempty).
    rewrite Hform, Hp. simpl.
    destruct (snd _); simpl; repeat split; intro k; apply commit_id.
  - intros Hsel. exists (commit doc a (obj_get doc a)).
    unfold saveRegenBtn_click. rewrite Hdoc, Hsel, Hform, Hp. simpl.
    repeat split. intro k. apply commit_id.
Qed.

(** *** The null sentinel *)

Lemma parse_known_form (a : string) (form : list node) (doc : obj) :
  known_section a = true -> parseEditor a (Some form) doc <> VNull.
Proof.
  unfold known_section, parseEditor. intros Hk.
  destruct (a =? "summary").
  { unfold parse_summary. destruct (getElementById _ _); discriminate. }
  destruct (a =? "contact"); [discriminate|].
  destruct (a =? "skills"); [discriminate|].
  simpl in Hk. rewrite Hk. discriminate.
Qed.

(** C10, as the code has it.  Without a form container [parseEditor]
    returns [null], whatever the section.  For each known section type that
    is the only case: with a container, it returns a value other than
    [null], so the auto-commit of a known section overwrites that section,
    and the document then holds the parsed value under the key of the
    section.  (The fallback of an unknown section can return [null] with
    the container there.) *)
Theorem known_parse_never_null (st : state) (doc : obj) (a : string)
    (form : list node) :
  known_section a = true ->
  currentEditingData st = Some doc ->
  previousSection st = Some a ->
  formContainer st = Some form ->
  (forall s d, parseEditor s None d = VNull)
  /\ parseEditor a (Some form) doc <> VNull
  /\ currentEditingData (sectionSelect_change st)
     = Some (obj_set doc a (parseEditor a (Some form) doc))
  /\ obj_get (obj_set doc a (parseEditor a (Some form) doc)) a
     = parseEditor a (Some form) doc.
Proof.
  intros Hk Hdoc Hprev Hform.
  pose proof (parse_known_form a form doc Hk) as Hnn.
  split; [reflexivity|]. split; [exact Hnn|]. split.
  - rewrite (sectionSelect_change_tracked st doc a Hdoc)
      by (rewrite Hprev; apply tracked_nonempty;
          now apply known_section_nonempty).
    rewrite Hform. rewrite (commit_not_null doc a _ Hnn).
    now destruct (snd _).
  - apply obj_get_set_same. now apply known_assigns.
Qed.

End Session.

(** ** The session theorems on the worked examples *)

Section SessionExamples.
Import Js Dom Editor Shapes SampleJson Examples.



(** Cancel does not discard: after the cancel the in-memory document is still
    there, and the next open works on it, with the rewritten summary, rather
    than on a fresh copy of the persisted snapshot. *)
Lemma cancel_then_open_example :
  currentEditingData cancelled <> None
  /\ currentEditingData reopened
     <> option_map copy_obj (lastResumeData (storage reopened)).
Proof. split; vm_compute; discriminate. Qed.

(** The summary is rewritten and saved; the server accepts. *)
Lemma save_success_example :
  let st := typed in
  let url := VStr "http://localhost:8000/view/Acme/42/Edited.pdf" in
  let saved :=
    commit a_document "summary"
      (parseEditor "summary" (formContainer st) a_document) in
  let st' := saveRegenBtn_settle (Body a_success) (saveRegenBtn_click st) in
  storage st'
  = mkStore url (VStr "Resume updated.") (lastCompany (storage st))
      (Some saved) (lastJdText (storage st)) (lastJobContext (storage st))
  /\ currentEditingData st' = Some saved
  /\ (forall k, k <> "summary" -> obj_get saved k = obj_get a_document k)
  /\ currentViewUrl st' = url
  /\ editorUI st' = false.
Proof.
  apply (save_success_persists typed a_document a_success
           (VStr "http://localhost:8000/view/Acme/42/Edited.pdf"));
    reflexivity.
Defined.

(** A section the editor has no form for, with a raw text that is not JSON. *)
Lemma unknown_parse_example :
  let st := editing_unknown in
  let doc := ("education", VArr [VStr "MIT"]) :: a_document in
  parseEditor "education" (Some broken_raw_form) doc = obj_get doc "education"
  /\ (previousSection st = Some "education" ->
      exists doc',
        currentEditingData (sectionSelect_change st) = Some doc'
        /\ (forall k, obj_get doc' k = obj_get doc k)
        /\ alerts (sectionSelect_change st) = alerts st)
  /\ (sectionSelect st = "education" ->
      exists doc',
        currentEditingData (saveRegenBtn_click st) = Some doc'
        /\ (forall k, obj_get doc' k = obj_get doc k)
        /\ alerts (saveRegenBtn_click st) = alerts st).
Proof.
  apply (unknown_parse_fails_closed editing_unknown
           (("education", VArr [VStr "MIT"]) :: a_document) "education"
           broken_raw_form (textarea_id "edit_raw_json" "{oops"));
    [reflexivity | discriminate | reflexivity | reflexivity | reflexivity
    | reflexivity].
Defined.

(** Leaving the summary overwrites it. *)
Lemma known_parse_example :
  (forall s d, parseEditor s None d = VNull)
  /\ parseEditor "summary" (Some (summary_form "new")) a_document <> VNull
  /\ currentEditingData (sectionSelect_change typed)
     = Some (obj_set a_document "summary"
               (parseEditor "summary" (Some (summary_form "new"))
                  a_document))
  /\ obj_get
       (obj_set a_document "summary"
          (parseEditor "summary" (Some (summary_form "new")) a_document))
       "summary"
     = parseEditor "summary" (Some (summary_form "new")) a_document.
Proof.
  apply (known_parse_never_null typed a_document "summary"
           (summary_form "new")); reflexivity.
Defined.

(** The sentinel with the container there: the raw text of an unknown
    section is the literal [null]. *)
Lemma raw_null_example :
  parseEditor "education" (Some null_raw_form) a_document = VNull
  /\ Some null_raw_form <> None.
Proof. split; [reflexivity | discriminate]. Qed.

End SessionExamples.

(** ** Facts about the rendered forms *)

Section FormFacts.
Import Js Dom Editor Shapes.

Lemma traverse_map {A B C} (f : A -> option B) (g : B -> C) (l : list A) :
  traverse (fun x => do y <- f x; Some (g y)) l
  = option_map (map g) (traverse f l).
Proof.
  induction l as [|x rest IH]; simpl.
  - reflexivity.
  - destruct (f x) as [y|]; simpl; [|reflexivity].
    rewrite IH. now destruct (traverse f rest).
Qed.

Lemma traverse_nth_error {A B} (f : A -> option B) (l : list A) (l' : list B)
    (i : nat) (x : A) :
  traverse f l = Some l' ->
  nth_error l i = Some x ->
  exists y, f x = Some y /\ nth_error l' i = Some y.
Proof.
  revert l' i. induction l as [|a rest IH]; intros l' i Ht Hn.
  - destruct i; discriminate.
  - simpl in Ht. destruct (f a) as [b|] eqn:Hb; simpl in Ht; [|discriminate].
    destruct (traverse f rest) as [bs|]; simpl in Ht; [|discriminate].
    injection Ht as <-. destruct i as [|i]; simpl in *.
    + injection Hn as <-. now exists b.
    + now apply (IH bs).
Qed.

Lemma traverse_Forall2 {A B} (f : A -> option B) (l : list A) (l' : list B) :
  traverse f l = Some l' -> Forall2 (fun x y => f x = Some y) l l'.
Proof.
  revert l'. induction l as [|a rest IH]; intros l' Ht; simpl in Ht.
  - injection Ht as <-. constructor.
  - destruct (f a) as [b|] eqn:Hb; simpl in Ht; [|discriminate].
    destruct (traverse f rest) as [bs|]; simpl in Ht; [|discriminate].
    injection Ht as <-. constructor; auto.
Qed.

Lemma traverse_total {A B} (f : A -> option B) (g : A -> B) (l : list A) :
  Forall (fun x => f x = Some (g x)) l -> traverse f l = Some (map g l).
Proof.
  induction 1 as [|x rest Hx _ IH]; simpl.
  - reflexivity.
  - now rewrite Hx, IH.
Qed.

Lemma querySelectorAll_cons (c : string) (n : node) (rest : list node) :
  querySelectorAll c (n :: rest)
  = (filter (has_class c) (subtree n) ++ querySelectorAll c rest)%list.
Proof. unfold querySelectorAll, descendants. simpl. apply filter_app. Qed.

Lemma querySelectorAll_app (c : string) (l1 l2 : list node) :
  querySelectorAll c (l1 ++ l2)
  = (querySelectorAll c l1 ++ querySelectorAll c l2)%list.
Proof.
  unfold querySelectorAll, descendants. now rewrite flat_map_app, filter_app.
Qed.

(** *** Bullet rows *)

Lemma bullet_rows_inputs (texts : list string) :
  querySelectorAll "bullet-input" (map bullet_row texts)
  = map (textarea ["bullet-input"]) texts.
Proof.
  induction texts as [|t rest IH]; [reflexivity|].
  simpl map. rewrite querySelectorAll_cons, IH. reflexivity.
Qed.

Lemma bullet_rows_without (c : string) (texts : list string) :
  existsb (String.eqb c)
    ["bullet-item"; "bullet-input"; "remove-btn"; "remove-bullet-btn"]
  = false ->
  querySelectorAll c (map bullet_row texts) = [].
Proof.
  intros Hc. simpl in Hc.
  repeat (apply orb_false_iff in Hc as [? Hc]).
  induction texts as [|t rest IH]; [reflexivity|].
  simpl map. rewrite querySelectorAll_cons, IH.
  unfold bullet_row, div, textarea, button, has_class. simpl.
  now repeat match goal with
             | Heq : (c =? _) = false |- _ => rewrite Heq; clear Heq
             end.
Qed.

Lemma createBulletRow_rows (bs : list value) :
  traverse createBulletRow bs
  = option_map (map bullet_row) (traverse safe_text bs).
Proof. unfold createBulletRow. apply traverse_map. Qed.

(** *** Item blocks *)

(** The rows of an item: [None] when a bullet makes the rendering throw. *)
Lemma renderItemBlock_inv (item : value) (section : string) (block : node) :
  renderItemBlock item section = Some block ->
  exists header texts,
    item_header item section = Some header
    /\ block = item_block header (map bullet_row texts)
    /\ (match prop item "bullets" with
        | Some (VArr bs) => traverse safe_text bs = Some texts
        | Some _ => texts = []
        | None => False
        end).
Proof.
  unfold renderItemBlock. intros Hr.
  destruct (item_header item section) as [header|]; simpl in Hr;
    [|discriminate].
  destruct (prop item "bullets") as [bullets|]; simpl in Hr; [|discriminate].
  exists header.
  destruct bullets as [| |b|s|bs|o]; simpl in Hr;
    try (injection Hr as <-; exists []; now repeat split).
  rewrite createBulletRow_rows in Hr.
  destruct (traverse safe_text bs) as [texts|]; simpl in Hr; [|discriminate].
  injection Hr as <-. exists texts. now repeat split.
Qed.

Lemma subtree_filter (c : string) (n : node) :
  filter (has_class c) (subtree n)
  = ((if has_class c n then [n] else [])
     ++ querySelectorAll c (node_children n))%list.
Proof.
  destruct n as [tag i cls key v kids]. simpl. now destruct (has_class c _).
Qed.

Lemma querySelectorAll_nil (c : string) : querySelectorAll c [] = [].
Proof. reflexivity. Qed.

End FormFacts.

(** Walk a query down a tree whose shape is known, with the equations of a
    query on a list ([step]), on an element ([down]) and on no element
    ([stop]). *)
Ltac walk_by step down stop :=
  repeat (rewrite ?step, ?down, ?stop;
          simpl Dom.node_children; simpl Dom.has_class).

Section BlockFacts.
Import Js Dom Editor Shapes.

Lemma item_header_experience (item : value) (header : node) :
  item_header item "experience" = Some header ->
  exists company roleVal locVal dateVal,
    slot item ["company"] = Some company
    /\ slot item ["role"; "title"] = Some roleVal
    /\ slot item ["location"] = Some locVal
    /\ slot item ["dates"; "date"] = Some dateVal
    /\ header = experience_header company roleVal locVal dateVal.
Proof.
  unfold item_header. simpl String.eqb. cbv iota.
  destruct (slot item ["role"; "title"]) as [roleVal|]; [|discriminate].
  destruct (slot item ["dates"; "date"]) as [dateVal|]; [|discriminate].
  destruct (slot item ["location"]) as [locVal|]; [|discriminate].
  destruct (slot item ["company"]) as [company|]; [|discriminate].
  simpl. intros [= <-]. now exists company, roleVal, locVal, dateVal.
Qed.

Lemma item_header_leadership (item : value) (header : node) :
  item_header item "leadership" = Some header ->
  exists orgVal roleVal locVal dateVal,
    slot item ["organization"] = Some orgVal
    /\ slot item ["role"] = Some roleVal
    /\ slot item ["location"] = Some locVal
    /\ slot item ["dates"] = Some dateVal
    /\ header = leadership_header orgVal roleVal locVal dateVal.
Proof.
  unfold item_header. simpl String.eqb. cbv iota.
  destruct (slot item ["organization"]) as [orgVal|]; [|discriminate].
  destruct (slot item ["role"]) as [roleVal|]; [|discriminate].
  destruct (slot item ["dates"]) as [dateVal|]; [|discriminate].
  destruct (slot item ["location"]) as [locVal|]; [|discriminate].
  simpl. intros [= <-]. now exists orgVal, roleVal, locVal, dateVal.
Qed.

Lemma item_header_projects (item : value) (header : node) :
  item_header item "projects" = Some header ->
  exists name tech dateVal,
    slot item ["name"] = Some name
    /\ slot item ["tech"] = Some tech
    /\ slot item ["dates"; "date"] = Some dateVal
    /\ header = project_header name tech dateVal.
Proof.
  unfold item_header. simpl String.eqb. cbv iota.
  destruct (slot item ["dates"; "date"]) as [dateVal|]; [|discriminate].
  destruct (slot item ["name"]) as [name|]; [|discriminate].
  destruct (slot item ["tech"]) as [tech|]; [|discriminate].
  simpl. intros [= <-]. now exists name, tech, dateVal.
Qed.

Lemma item_header_shape (item : value) (section : string) (header : node) :
  item_header item section = Some header -> is_header header.
Proof.
  unfold item_header.
  destruct (section =? "experience"); [|destruct (section =? "leadership")];
    repeat match goal with
           | |- context [slot item ?ks] => destruct (slot item ks); simpl
           end;
    try discriminate; intros [= <-]; constructor.
Qed.

(** A rendered block holds no other block. *)
Lemma item_block_alone (header : node) (texts : list string) :
  is_header header ->
  querySelectorAll "item-block" [item_block header (map bullet_row texts)]
  = [item_block header (map bullet_row texts)].
Proof.
  intros Hh. unfold item_block at 1.
  destruct Hh;
    walk_by querySelectorAll_cons subtree_filter querySelectorAll_nil;
    rewrite bullet_rows_without by reflexivity; reflexivity.
Qed.

Lemma item_block_bullets (header : node) (texts : list string) :
  is_header header ->
  parse_bullets (item_block header (map bullet_row texts))
  = VArr (map VStr (filter (fun t => negb (trim t =? "")) texts)).
Proof.
  intros Hh. unfold parse_bullets. simpl node_children.
  destruct Hh;
    walk_by querySelectorAll_cons subtree_filter querySelectorAll_nil;
    rewrite bullet_rows_inputs; simpl;
    rewrite !app_nil_r, map_map; simpl; now rewrite map_id.
Qed.

Lemma renderItemBlock_shape (item : value) (section : string) (block : node) :
  renderItemBlock item section = Some block ->
  exists header texts,
    is_header header /\ block = item_block header (map bullet_row texts).
Proof.
  intros Hr. apply renderItemBlock_inv in Hr as (header & texts & Hh & -> & _).
  exists header, texts. split; [|reflexivity].
  now apply item_header_shape in Hh.
Qed.

Lemma blocks_alone (section : string) (items : list value)
    (blocks : list node) :
  traverse (fun item => renderItemBlock item section) items = Some blocks ->
  querySelectorAll "item-block" blocks = blocks.
Proof.
  intros Ht. apply traverse_Forall2 in Ht.
  induction Ht as [|item block items blocks Hb _ IH]; [reflexivity|].
  change (block :: blocks) with ([block] ++ blocks)%list.
  rewrite querySelectorAll_app, IH.
  apply renderItemBlock_shape in Hb as (header & texts & Hh & ->).
  now rewrite item_block_alone.
Qed.

(** The form of a list section: one block per item, in order, and the
    blocks are what the parser finds. *)
Lemma render_items_inv (section : string) (data : value) (view : list node) :
  render_items section data = Some view ->
  exists items blocks,
    (if truthy data then data else VArr []) = VArr items
    /\ traverse (fun item => renderItemBlock item section) items = Some blocks
    /\ querySelectorAll "item-block" view = blocks.
Proof.
  unfold render_items. intros Hr.
  destruct (if truthy data then data else VArr []) as [| |b|s|items|o];
    try discriminate.
  destruct (traverse _ items) as [blocks|] eqn:Ht; simpl in Hr; [|discriminate].
  injection Hr as <-. exists items, blocks. repeat split; [exact Ht|].
  walk_by querySelectorAll_cons subtree_filter querySelectorAll_nil.
  rewrite (blocks_alone section items blocks Ht).
  now rewrite !app_nil_r.
Qed.

Lemma parse_item_experience (c r l d : string) (texts : list string) :
  parse_item "experience"
    (item_block (experience_header c r l d) (map bullet_row texts))
  = VObj [("company", VStr c); ("role", VStr r); ("dates", VStr d);
          ("location", VStr l);
          ("bullets",
           VArr (map VStr (filter (fun t => negb (trim t =? "")) texts)))].
Proof.
  unfold parse_item. rewrite item_block_bullets by constructor. reflexivity.
Qed.

Lemma parse_item_leadership (o r l d : string) (texts : list string) :
  parse_item "leadership"
    (item_block (leadership_header o r l d) (map bullet_row texts))
  = VObj [("organization", VStr o); ("role", VStr r); ("dates", VStr d);
          ("location", VStr l);
          ("bullets",
           VArr (map VStr (filter (fun t => negb (trim t =? "")) texts)))].
Proof.
  unfold parse_item. rewrite item_block_bullets by constructor. reflexivity.
Qed.

Lemma parse_item_projects (n t d : string) (texts : list string) :
  parse_item "projects"
    (item_block (project_header n t d) (map bullet_row texts))
  = VObj [("name", VStr n); ("tech", VStr t); ("dates", VStr d);
          ("bullets",
           VArr (map VStr (filter (fun t => negb (trim t =? "")) texts)))].
Proof.
  unfold parse_item. rewrite item_block_bullets by constructor. reflexivity.
Qed.

End BlockFacts.

Section ButtonExamples.
Import Js Dom Editor Shapes SampleJson Examples.

(** A new project is added to an empty list and parsed as its template. *)
Lemma add_item_example :
  option_map
    (fun view =>
       parseEditor "projects" (Some (add_item "projects" view)) a_document)
    (render_view "projects" (VArr []))
  = Some (VArr [VObj [("name", VStr "New Project"); ("tech", VStr "Tech Stack");
                      ("dates", VStr "2024");
                      ("bullets", VArr [VStr "New bullet"])]]).
Proof. reflexivity. Qed.

(** A category is added to a skills form and parsed with the others. *)
Lemma add_category_example :
  option_map
    (fun view =>
       parseEditor "skills" (Some (add_category view)) a_document)
    (render_skills (VObj [("Languages", VStr "Python, Go")]))
  = Some (VObj [("Languages", VStr "Python, Go");
                ("New Category", VStr "")]).
Proof. reflexivity. Qed.

End ButtonExamples.

(** ** Legacy field names *)

Section Aliases.
Import Js Dom Editor Shapes.
Context `{Json}.

Lemma parse_items_nth (section : string) (form : list node) (i : nat)
    (block : node) :
  nth_error (querySelectorAll "item-block" form) i = Some block ->
  exists parsed,
    parse_items section form = VArr parsed
    /\ nth_error parsed i = Some (parse_item section block).
Proof.
  intros Hn. unfold parse_items. eexists. split; [reflexivity|].
  now rewrite nth_error_map, Hn.
Qed.

(** C8. An experience entry with no [role] key and [title] "Engineer" is
    rendered with "Engineer" in its role field, and the entry parsed back
    from that form has [role] "Engineer" and no [title] key.  The form is
    one of markup-free text: the form the browser builds. *)
Theorem experience_title_read_not_written (items : list value) (i : nat)
    (e : obj) (view : list node) (doc : obj) :
  nth_error items i = Some (VObj e) ->
  has_key e "role" = false ->
  obj_get e "title" = VStr "Engineer" ->
  render_view "experience" (VArr items) = Some view ->
  plain_form view = true ->
  exists block parsed o,
    nth_error (querySelectorAll "item-block" view) i = Some block
    /\ getVal block "item-role" = VStr "Engineer"
    /\ parseEditor "experience" (Some view) doc = VArr parsed
    /\ nth_error parsed i = Some (VObj o)
    /\ obj_get o "role" = VStr "Engineer"
    /\ has_key o "title" = false.
Proof.
  intros Hi Hrole Htitle Hview _.
  change (render_items "experience" (VArr items) = Some view) in Hview.
  apply render_items_inv in Hview as (items' & blocks & Hitems & Ht & Hq).
  simpl in Hitems. injection Hitems as <-.
  destruct (traverse_nth_error _ _ _ _ _ Ht Hi) as (block & Hb & Hnb).
  apply renderItemBlock_inv in Hb as (header & texts & Hh & -> & _).
  apply item_header_experience in Hh
    as (company & roleVal & locVal & dateVal & _ & Hr & _ & _ & ->).
  assert (roleVal = "Engineer") as ->.
  { unfold slot in Hr. simpl in Hr.
    rewrite (obj_get_absent e "role" Hrole), Htitle in Hr. simpl in Hr.
    now injection Hr as <-. }
  rewrite <- Hq in Hnb.
  destruct (parse_items_nth "experience" view i _ Hnb) as (parsed & Hp & Hnp).
  rewrite parse_item_experience in Hnp.
  eexists; exists parsed; eexists.
  split; [exact Hnb|]. split; [reflexivity|]. split; [exact Hp|].
  split; [exact Hnp|]. split; reflexivity.
Qed.

(** C9, as the code has it. A leadership entry is rendered with its role
    field read from [role] alone, empty when [role] is absent or empty:
    [title] is not consulted.  Parsing writes the keys [organization],
    [role], [dates], [location] and [bullets], with [role] taken from the
    role field.  The form is one of markup-free text: the form the browser
    builds. *)
Theorem leadership_role_read_from_role_only (items : list value) (i : nat)
    (e : obj) (view : list node) (doc : obj) :
  nth_error items i = Some (VObj e) ->
  render_view "leadership" (VArr items) = Some view ->
  plain_form view = true ->
  exists block parsed o,
    nth_error (querySelectorAll "item-block" view) i = Some block
    /\ getVal block "item-role"
       = VStr (text_of (or_else (obj_get e "role") (VStr "")))
    /\ parseEditor "leadership" (Some view) doc = VArr parsed
    /\ nth_error parsed i = Some (VObj o)
    /\ obj_get o "role" = getVal block "item-role"
    /\ keys o = ["organization"; "role"; "dates"; "location"; "bullets"].
Proof.
  intros Hi Hview _.
  change (render_items "leadership" (VArr items) = Some view) in Hview.
  apply render_items_inv in Hview as (items' & blocks & Hitems & Ht & Hq).
  simpl in Hitems. injection Hitems as <-.
  destruct (traverse_nth_error _ _ _ _ _ Ht Hi) as (block & Hb & Hnb).
  apply renderItemBlock_inv in Hb as (header & texts & Hh & -> & _).
  apply item_header_leadership in Hh
    as (orgVal & roleVal & locVal & dateVal & _ & Hr & _ & _ & ->).
  assert (roleVal = text_of (or_else (obj_get e "role") (VStr ""))) as ->.
  { unfold slot, to_string in Hr. simpl in Hr. unfold or_else.
    destruct (truthy (obj_get e "role")); simpl in Hr;
      [destruct (printable (obj_get e "role")); [|discriminate]|];
      now injection Hr as <-. }
  rewrite <- Hq in Hnb.
  destruct (parse_items_nth "leadership" view i _ Hnb) as (parsed & Hp & Hnp).
  rewrite parse_item_leadership in Hnp.
  eexists; exists parsed; eexists.
  split; [exact Hnb|]. split; [reflexivity|]. split; [exact Hp|].
  split; [exact Hnp|]. split; reflexivity.
Qed.

End Aliases.

Section AliasExamples.
Import Js Dom Editor Shapes SampleJson Examples.

Lemma experience_title_example :
  exists block parsed o,
    nth_error
      (querySelectorAll "item-block"
         [div_id "itemsList"
            [item_block (experience_header "Acme" "Engineer" "" "2020 - 2022")
               (map bullet_row [""; "Led a team of 5"])];
          button []]) 0 = Some block
    /\ getVal block "item-role" = VStr "Engineer"
    /\ parseEditor "experience"
         (Some
            [div_id "itemsList"
               [item_block
                  (experience_header "Acme" "Engineer" "" "2020 - 2022")
                  (map bullet_row [""; "Led a team of 5"])];
             button []]) a_document = VArr parsed
    /\ nth_error parsed 0 = Some (VObj o)
    /\ obj_get o "role" = VStr "Engineer"
    /\ has_key o "title" = false.
Proof.
  apply (experience_title_read_not_written [a_legacy_job] 0
           [("company", VStr "Acme"); ("title", VStr "Engineer");
            ("date", VStr "2020 - 2022");
            ("bullets", VArr [VStr ""; VStr "Led a team of 5"])]);
    reflexivity.
Defined.

(** No fallback to [title]: the role field of a leadership entry that has a
    [title] and no [role] is rendered empty. *)
Lemma leadership_title_example :
  exists view,
    render_view "leadership" (VArr [a_titled_lead]) = Some view
    /\ map (fun block => getVal block "item-role")
         (querySelectorAll "item-block" view) = [VStr ""]
    /\ [VStr ""] <> [VStr "President"].
Proof. eexists. repeat split. discriminate. Qed.

Lemma leadership_role_example :
  exists block parsed o,
    nth_error
      (querySelectorAll "item-block"
         [div_id "itemsList"
            [item_block (leadership_header "Chess Club" "" "" "")
               (map bullet_row ["Ran the weekly meetings"])];
          button []]) 0 = Some block
    /\ getVal block "item-role"
       = VStr (text_of
                 (or_else
                    (obj_get
                       [("organization", VStr "Chess Club");
                        ("title", VStr "President");
                        ("bullets", VArr [VStr "Ran the weekly meetings"])]
                       "role") (VStr "")))
    /\ parseEditor "leadership"
         (Some
            [div_id "itemsList"
               [item_block (leadership_header "Chess Club" "" "" "")
                  (map bullet_row ["Ran the weekly meetings"])];
             button []]) a_document = VArr parsed
    /\ nth_error parsed 0 = Some (VObj o)
    /\ obj_get o "role" = getVal block "item-role"
    /\ keys o = ["organization"; "role"; "dates"; "location"; "bullets"].
Proof.
  apply (leadership_role_read_from_role_only [a_titled_lead] 0
           [("organization", VStr "Chess Club"); ("title", VStr "President");
            ("bullets", VArr [VStr "Ran the weekly meetings"])]);
    reflexivity.
Defined.

End AliasExamples.

(** ** Parsing a skills form *)

Section Skills.
Import Js Dom Editor Shapes.

Lemma has_key_replace (o : obj) (k c : string) (v : value) :
  has_key (obj_replace o k v) c = has_key o c.
Proof.
  induction o as [|[k0 v0] rest IH]; simpl; [reflexivity|].
  destruct (k0 =? k); simpl; [reflexivity | now rewrite IH].
Qed.

Lemma keys_replace (o : obj) (k : string) (v : value) :
  keys (obj_replace o k v) = keys o.
Proof.
  induction o as [|[k0 v0] rest IH]; simpl; [reflexivity|].
  destruct (k0 =? k); simpl; [reflexivity | now rewrite IH].
Qed.

Lemma In_keys_insert_index (o : obj) (n : N) (k c : string) (v : value) :
  In c (keys (obj_insert_index o n k v)) <-> c = k \/ In c (keys o).
Proof.
  induction o as [|[k0 v0] rest IH]; simpl.
  - intuition.
  - destruct (array_index k0) as [m|]; [destruct (m <? n)%N|]; simpl;
      rewrite ?IH; intuition.
Qed.

Lemma NoDup_keys_insert_index (o : obj) (n : N) (k : string) (v : value) :
  NoDup (keys o) -> ~ In k (keys o) ->
  NoDup (keys (obj_insert_index o n k v)).
Proof.
  induction o as [|[k0 v0] rest IH]; simpl; intros Hnd Hk.
  - constructor; [tauto | constructor].
  - inversion Hnd as [|? ? Hk0 Hrest]; subst.
    destruct (array_index k0) as [m|]; [destruct (m <? n)%N|]; simpl.
    + constructor.
      * rewrite In_keys_insert_index. intuition.
      * apply IH; [exact Hrest | tauto].
    + constructor; [simpl; tauto | exact Hnd].
    + constructor; [simpl; tauto | exact Hnd].
Qed.

Lemma named_keys_insert_index (o : obj) (n : N) (k : string) (v : value) :
  is_index k = true ->
  named (keys (obj_insert_index o n k v)) = named (keys o).
Proof.
  intros Hk. unfold named.
  induction o as [|[k0 v0] rest IH]; simpl.
  - now rewrite Hk.
  - destruct (array_index k0) as [m|] eqn:Hk0; [destruct (m <? n)%N|]; simpl;
      rewrite ?Hk; simpl; rewrite ?IH; reflexivity.
Qed.

Lemma index_ordered_named (l : list string) (bound : N) :
  forallb (fun k => negb (is_index k)) l = true -> index_ordered bound l = true.
Proof.
  destruct l as [|k rest]; simpl; [reflexivity|]. intros Hl.
  apply andb_true_iff in Hl as [Hk Hrest]. unfold is_index in Hk.
  now destruct (array_index k).
Qed.

Lemma index_ordered_snoc (l : list string) (bound : N) (k : string) :
  array_index k = None ->
  index_ordered bound l = true -> index_ordered bound (l ++ [k]) = true.
Proof.
  intros Hk. revert bound.
  induction l as [|k0 rest IH]; simpl; intros bound Hl.
  - now rewrite Hk.
  - destruct (array_index k0) as [m|].
    + apply andb_true_iff in Hl as [Hm Hrest]. now rewrite Hm, IH.
    + rewrite forallb_app, Hl. simpl. unfold is_index. now rewrite Hk.
Qed.

Lemma index_ordered_insert (o : obj) (bound n : N) (k : string) (v : value) :
  array_index k = Some n ->
  (bound <=? n)%N = true ->
  index_ordered bound (keys o) = true ->
  index_ordered bound (keys (obj_insert_index o n k v)) = true.
Proof.
  intros Hk. revert bound.
  induction o as [|[k0 v0] rest IH]; simpl; intros bound Hb Ho.
  - now rewrite Hk, Hb.
  - destruct (array_index k0) as [m|] eqn:Hk0.
    + apply andb_true_iff in Ho as [Hm Hrest].
      destruct (m <? n)%N eqn:Hmn; simpl.
      * rewrite Hk0, Hm. simpl. apply IH; [|exact Hrest].
        apply N.leb_le. apply N.ltb_lt in Hmn. lia.
      * rewrite Hk, Hb, Hk0, Hrest. simpl. rewrite andb_true_r.
        apply N.leb_le. apply N.ltb_ge in Hmn. exact Hmn.
    + simpl. rewrite Hk, Hb, Hk0. simpl. exact Ho.
Qed.

Lemma index_ordered_set (o : obj) (k : string) (v : value) :
  index_ordered 0 (keys o) = true ->
  index_ordered 0 (keys (obj_set o k v)) = true.
Proof.
  intros Ho. unfold obj_set. destruct (has_key o k).
  - now rewrite keys_replace.
  - destruct (k =? "__proto__"); [exact Ho|].
    destruct (array_index k) as [n|] eqn:Hk.
    + apply (index_ordered_insert o 0 n k v Hk); [|exact Ho].
      apply N.leb_le. lia.
    + unfold keys. rewrite map_app. now apply index_ordered_snoc.
Qed.

Lemma In_keys_set (o : obj) (k c : string) (v : value) :
  In c (keys (obj_set o k v))
  <-> (c = k /\ assigns o k = true) \/ In c (keys o).
Proof.
  unfold obj_set, assigns. destruct (has_key o k) eqn:Hk; simpl.
  - rewrite keys_replace. apply has_key_In in Hk. intuition congruence.
  - destruct (k =? "__proto__"); simpl; [intuition congruence|].
    destruct (array_index k) as [n|].
    + rewrite In_keys_insert_index. intuition.
    + unfold keys. rewrite map_app, in_app_iff. simpl. intuition.
Qed.

Lemma NoDup_keys_set (o : obj) (k : string) (v : value) :
  NoDup (keys o) -> NoDup (keys (obj_set o k v)).
Proof.
  intros Hnd. unfold obj_set. destruct (has_key o k) eqn:Hk.
  - now rewrite keys_replace.
  - assert (Hnot : ~ In k (keys o)).
    { rewrite <- has_key_In. congruence. }
    destruct (k =? "__proto__"); [exact Hnd|].
    destruct (array_index k) as [n|].
    + now apply NoDup_keys_insert_index.
    + unfold keys in *. rewrite map_app. simpl.
      apply NoDup_app; [exact Hnd | constructor; [tauto|constructor] |].
      intros c Hc [<-|[]]. contradiction.
Qed.

Lemma named_keys_set (o : obj) (k : string) (v : value) :
  named (keys (obj_set o k v))
  = if negb (assigns o k) || has_key o k || is_index k then named (keys o)
    else (named (keys o) ++ [k])%list.
Proof.
  unfold obj_set, assigns. destruct (has_key o k) eqn:Hk; simpl.
  - now rewrite keys_replace.
  - destruct (k =? "__proto__"); simpl; [reflexivity|].
    unfold is_index. destruct (array_index k) as [n|] eqn:Hn.
    + apply named_keys_insert_index. unfold is_index. now rewrite Hn.
    + unfold named, keys. rewrite map_app, filter_app. simpl.
      unfold is_index. now rewrite Hn.
Qed.

Lemma distinct_snoc (l : list string) (x : string) :
  distinct (l ++ [x])
  = if existsb (String.eqb x) l then distinct l else (distinct l ++ [x])%list.
Proof.
  induction l as [|a rest IH]; simpl; [reflexivity|].
  rewrite IH. rewrite (String.eqb_sym x a).
  destruct (existsb (String.eqb x) rest); simpl.
  - now rewrite orb_true_r.
  - rewrite orb_false_r, filter_app. simpl.
    destruct (a =? x); simpl; [now rewrite app_nil_r | reflexivity].
Qed.

Lemma existsb_eqb_In (x : string) (l : list string) :
  existsb (String.eqb x) l = true <-> In x l.
Proof.
  rewrite existsb_exists. split.
  - intros (y & Hy & Heq). apply String.eqb_eq in Heq. now subst.
  - intros Hx. exists x. split; [exact Hx | apply String.eqb_refl].
Qed.

(** The object built by assigning the pairs in order. *)
Lemma parse_skills_pairs (form : list node) :
  parse_skills form = VObj (assign_all (skill_pairs form)).
Proof.
  unfold parse_skills, skill_pairs, assign_all. f_equal.
  generalize (@nil (string * value)).
  induction (querySelectorAll "item-block" form) as [|block rest IH];
    intros acc; simpl; [reflexivity|].
  rewrite fold_left_app, <- IH.
  destruct (querySelector "skill-category-input" _);
    [destruct (querySelector "skill-values-input" _)|]; reflexivity.
Qed.

Lemma assign_all_snoc (pairs : list (string * string)) (k v : string) :
  assign_all (pairs ++ [(k, v)]) = obj_set (assign_all pairs) k (VStr v).
Proof. unfold assign_all. now rewrite fold_left_app. Qed.

Lemma has_key_obj_set (o : obj) (k c : string) (v : value) :
  has_key (obj_set o k v) c = has_key o c || (assigns o k && (k =? c)).
Proof.
  apply eq_true_iff_eq.
  rewrite orb_true_iff, andb_true_iff, !has_key_In, In_keys_set,
    String.eqb_eq.
  intuition congruence.
Qed.

Lemma assigning_snoc (pairs : list (string * string)) (k v : string) :
  assigning (pairs ++ [(k, v)])
  = (assigning pairs
     ++ (if k =? "__proto__" then [] else [(k, v)]))%list.
Proof.
  unfold assigning. rewrite filter_app. simpl.
  now destruct (k =? "__proto__").
Qed.

(** What assigning the pairs in order builds: the pairs named [__proto__]
    leave no trace, the others are merged by name. *)
Lemma assigned_pairs (pairs : list (string * string)) :
  has_key (assign_all pairs) "__proto__" = false
  /\ NoDup (keys (assign_all pairs))
  /\ (forall c, In c (keys (assign_all pairs))
                <-> In c (map fst (assigning pairs)))
  /\ (forall c, obj_get (assign_all pairs) c
                = last_value (assigning pairs) c)
  /\ named (keys (assign_all pairs))
     = distinct (named (map fst (assigning pairs)))
  /\ index_ordered 0 (keys (assign_all pairs)) = true.
Proof.
  induction pairs as [|[k v] rest IH] using rev_ind.
  - repeat split; try constructor; simpl; tauto.
  - rewrite assign_all_snoc, assigning_snoc.
    set (o := assign_all rest) in *.
    destruct IH as (Hproto & Hnd & Hin & Hget & Hnamed & Hord).
    destruct (String.eqb_spec k "__proto__") as [-> | Hk].
    + assert (Hsame : obj_set o "__proto__" (VStr v) = o).
      { unfold obj_set. now rewrite Hproto. }
      rewrite Hsame, app_nil_r. repeat split; auto; apply Hin.
    + pose proof (assigns_named o k Hk) as Ha.
      split; [|split; [now apply NoDup_keys_set|]].
      { rewrite has_key_obj_set, Hproto, Ha.
        now rewrite (eqb_false_of_neq _ _ Hk). }
      split; [|split; [|split; [|now apply index_ordered_set]]].
      * intros c. rewrite In_keys_set, map_app, in_app_iff, Hin, Ha.
        simpl. intuition.
      * intros c. rewrite obj_get_set, Ha. unfold last_value.
        rewrite fold_left_app. simpl. fold (last_value (assigning rest) c).
        now rewrite Hget.
      * rewrite named_keys_set, Ha, map_app. unfold named at 3.
        rewrite filter_app. fold (named (map fst (assigning rest))). simpl.
        destruct (is_index k) eqn:Hidx; simpl.
        -- now rewrite orb_true_r, app_nil_r.
        -- rewrite orb_false_r, distinct_snoc, Hnamed.
           assert (Heq : has_key o k
                         = existsb (String.eqb k)
                             (named (map fst (assigning rest)))).
           { apply eq_true_iff_eq.
             rewrite has_key_In, Hin, existsb_eqb_In.
             unfold named. rewrite filter_In, Hidx. simpl. tauto. }
           now rewrite Heq.
Qed.

Context `{Json}.

(** C7, as the code has it. Parsing a skills form yields an object keyed
    by the current text of the category inputs.  Blocks that carry the same
    category name are merged into one property, which holds the skills text
    of the last such block; no key occurs twice.  A block named [__proto__]
    makes no property.  Names that are array indices come first, in
    ascending order; the other names follow in the display order of their
    first block. *)
Theorem parse_skills_merges_duplicates (form : list node) (doc : obj) :
  exists o,
    parseEditor "skills" (Some form) doc = VObj o
    /\ has_key o "__proto__" = false
    /\ NoDup (keys o)
    /\ (forall c, In c (keys o)
                  <-> In c (map fst (assigning (skill_pairs form))))
    /\ (forall c, obj_get o c = last_value (assigning (skill_pairs form)) c)
    /\ named (keys o)
       = distinct (named (map fst (assigning (skill_pairs form))))
    /\ index_ordered 0 (keys o) = true.
Proof.
  eexists. split.
  - change (parseEditor "skills" (Some form) doc) with (parse_skills form).
    apply parse_skills_pairs.
  - apply assigned_pairs.
Qed.

End Skills.

Section SkillsExamples.
Import Js Dom Editor Shapes SampleJson Examples.

(** No pass-through: two blocks that carry the same category name do not
    both survive, the parsed object has one property for them; a block
    named [__proto__] does not survive at all; and a category named by a
    number comes first, whatever its place in the form. *)
Lemma renamed_skills_example :
  (skill_pairs a_renamed_skills_form
   = [("Tools", "Python, Go"); ("Tools", "Docker")]
   /\ parseEditor "skills" (Some a_renamed_skills_form) a_document
      = VObj [("Tools", VStr "Docker")]
   /\ keys [("Tools", VStr "Docker")]
      <> map fst (skill_pairs a_renamed_skills_form))
  /\ (skill_pairs a_proto_skills_form
      = [("Tools", "Docker"); ("__proto__", "Python, Go")]
      /\ parseEditor "skills" (Some a_proto_skills_form) a_document
         = VObj [("Tools", VStr "Docker")]
      /\ keys [("Tools", VStr "Docker")]
         <> map fst (skill_pairs a_proto_skills_form))
  /\ (skill_pairs a_numbered_skills_form
      = [("Tools", "Docker"); ("2024", "Python, Go")]
      /\ parseEditor "skills" (Some a_numbered_skills_form) a_document
         = VObj [("2024", VStr "Python, Go"); ("Tools", VStr "Docker")]
      /\ keys [("2024", VStr "Python, Go"); ("Tools", VStr "Docker")]
         <> map fst (skill_pairs a_numbered_skills_form)).
Proof. repeat split; discriminate. Qed.

End SkillsExamples.

(** ** Rendering then parsing *)

Section RoundTrip.
Import Js Dom Editor Shapes.

Lemma text_string (s : string) : text_of (or_else (VStr s) (VStr "")) = s.
Proof.
  unfold or_else. simpl. destruct (String.eqb_spec s ""); simpl; congruence.
Qed.

Lemma shown_string (s : string) :
  to_string (or_else (VStr s) (VStr "")) = Some s.
Proof.
  unfold to_string. rewrite text_string. unfold or_else. simpl.
  now destruct (s =? "").
Qed.


Lemma among_In (l : list string) (k : string) : among l k = true <-> In k l.
Proof. apply existsb_eqb_In. Qed.

(** *** Summary *)

Lemma render_summary_string (s : string) :
  render_summary (VStr s) = Some (summary_form s).
Proof. unfold render_summary. now rewrite shown_string. Qed.

Lemma summary_round_trip (s : string) :
  parse_summary (summary_form s) = VStr s.
Proof. reflexivity. Qed.

(** *** Skills *)






(** *** Contact *)

Lemma contact_inputs (f : string -> string) (ks : list string) :
  querySelectorAll "contact-input"
    (map (fun key => contact_field key (f key)) ks)
  = map (fun key => input_key ["contact-input"] key (f key)) ks.
Proof.
  induction ks as [|k rest IH]; [reflexivity|].
  simpl map. rewrite querySelectorAll_cons, IH. reflexivity.
Qed.

(** What the parser's loop leaves under each key. *)
Lemma parse_contact_lookup (f : string -> string) (ks : list string)
    (acc : obj) (c : string) :
  among ks "__proto__" = false ->
  obj_get
    (fold_left
       (fun contactData input =>
          if negb (trim (node_value input) =? "")
          then obj_set contactData (dataset_key input)
                 (VStr (trim (node_value input)))
          else contactData)
       (map (fun key => input_key ["contact-input"] key (f key)) ks) acc) c
  = if among ks c && nonblank (f c) then VStr (trim (f c)) else obj_get acc c.
Proof.
  revert acc. induction ks as [|k rest IH]; intros acc Hproto;
    [reflexivity|].
  unfold among in Hproto. cbn [existsb] in Hproto.
  apply orb_false_iff in Hproto as [Hk Hproto].
  apply String.eqb_neq in Hk.
  simpl map. simpl fold_left. rewrite IH by exact Hproto.
  unfold among. simpl existsb.
  fold (among rest c).
  destruct (among rest c && nonblank (f c)) eqn:Hrest.
  - apply andb_true_iff in Hrest as [Ha Hnb].
    now rewrite Ha, Hnb, orb_true_r.
  - fold (nonblank (f k)).
    destruct (String.eqb_spec c k) as [->|Hne]; simpl.
    + destruct (nonblank (f k)) eqn:Hnb.
      * apply obj_get_set_same, assigns_named. congruence.
      * reflexivity.
    + rewrite Hrest.
      destruct (nonblank (f k)); [|reflexivity].
      apply obj_get_set_other. intros Heq. apply Hne. now rewrite <- Heq.
Qed.






(** *** Experience, projects and leadership *)

Lemma alt_undefined (e : obj) (aliases : list string) :
  Forall (fun a => obj_get e a = VUndef) aliases ->
  alt (VObj e) aliases = Some (VStr "").
Proof.
  induction 1 as [|a rest Ha _ IH]; simpl; [reflexivity|].
  now rewrite Ha.
Qed.

(** A field that holds a string is shown as that string when its aliases
    are absent. *)
Lemma slot_field (e : obj) (f : string) (aliases : list string) (s : string) :
  obj_get e f = VStr s ->
  Forall (fun a => obj_get e a = VUndef) aliases ->
  slot (VObj e) (f :: aliases) = Some s.
Proof.
  intros Hf Ha. unfold slot. simpl. rewrite Hf. simpl.
  destruct (String.eqb_spec s "") as [->|Hne]; simpl; [|reflexivity].
  now rewrite alt_undefined.
Qed.

Lemma safe_text_strings (texts : list string) :
  traverse safe_text (map VStr texts) = Some texts.
Proof.
  induction texts as [|t rest IH]; simpl; [reflexivity|].
  rewrite IH. unfold safe_text. simpl.
  destruct (String.eqb_spec t "") as [->|Hne]; reflexivity.
Qed.



Lemma obj_get_normal_entry (e : obj) (k : string) :
  match normal_entry (VObj e) with
  | VObj e' => obj_get e' k
  | _ => VUndef
  end
  = if k =? "bullets" then
      match obj_get e k with
      | VArr bs => VArr (filter keeps bs)
      | x => x
      end
    else obj_get e k.
Proof.
  simpl. induction e as [|[k0 v0] rest IH]; simpl.
  - now destruct (k =? "bullets").
  - destruct (String.eqb_spec k0 k) as [->|Hne].
    + destruct (k =? "bullets"); simpl; now rewrite String.eqb_refl.
    + destruct (k0 =? "bullets"); simpl;
        rewrite (eqb_false_of_neq k0 k Hne); exact IH.
Qed.

Lemma canonical_entry_absent (section : string) (e : obj) (k : string) :
  forallb (among ("bullets" :: header_fields section)) (keys e) = true ->
  among ("bullets" :: header_fields section) k = false ->
  obj_get e k = VUndef.
Proof.
  intros Hkeys Hk. apply obj_get_absent.
  destruct (has_key e k) eqn:Hhas; [|reflexivity].
  apply has_key_In in Hhas. rewrite forallb_forall in Hkeys.
  rewrite (Hkeys k Hhas) in Hk. discriminate.
Qed.



(** An object with the keys of the shape that agrees, key by key, with the
    normal form of a canonical entry is the same object. *)
Lemma same_entry (section : string) (e p : obj) :
  forallb (among ("bullets" :: header_fields section)) (keys e) = true ->
  forallb (among ("bullets" :: header_fields section)) (keys p) = true ->
  Forall (fun k =>
            obj_get p k
            = if k =? "bullets" then
                match obj_get e k with
                | VArr bs => VArr (filter keeps bs)
                | x => x
                end
              else obj_get e k)
         ("bullets" :: header_fields section) ->
  same_object (VObj p) (normal_entry (VObj e)).
Proof.
  intros He Hp Hall k.
  pose proof (obj_get_normal_entry e k) as Hn. simpl in Hn. rewrite Hn.
  destruct (among ("bullets" :: header_fields section) k) eqn:Hk.
  - rewrite Forall_forall in Hall. apply Hall. now apply among_In.
  - rewrite (canonical_entry_absent section p k Hp Hk).
    rewrite (canonical_entry_absent section e k He Hk).
    now destruct (k =? "bullets").
Qed.

End RoundTrip.

Section ListRoundTrip.
Import Js Dom Editor Shapes.




Lemma list_section_cases (section : string) :
  is_list_section section = true ->
  section = "experience" \/ section = "projects" \/ section = "leadership".
Proof.
  unfold is_list_section. intros Hs.
  apply orb_true_iff in Hs as [Hs|Hs]; [apply orb_true_iff in Hs as [Hs|Hs]|];
    apply String.eqb_eq in Hs; auto.
Qed.




End ListRoundTrip.

Section RoundTripTheorem.
Import Js Dom Editor Shapes.
Context `{Json}.


End RoundTripTheorem.

Section RoundTripExamples.
Import Js Dom Editor Shapes SampleJson Examples.



End RoundTripExamples.

(** ** What the parser delivers *)

Section TrimFacts.
Import Js.

Lemma trim_end_trim_end (s : string) : trim_end (trim_end s) = trim_end s.
Proof.
  induction s as [|c rest IH]; simpl; [reflexivity|].
  destruct (trim_end rest) as [|d t] eqn:Hrest.
  - destruct (is_space c) eqn:Hc; simpl; [reflexivity|]. now rewrite Hc.
  - change (trim_end (String c (String d t)))
      with (match trim_end (String d t) with
            | EmptyString =>
                if is_space c then EmptyString else String c EmptyString
            | String e u => String c (String e u)
            end).
    now rewrite IH.
Qed.

Lemma trim_start_head (s : string) :
  trim_start s = EmptyString
  \/ exists c rest, trim_start s = String c rest /\ is_space c = false.
Proof.
  induction s as [|c rest IH]; simpl; [now left|].
  destruct (is_space c) eqn:Hc; [exact IH|].
  right. now exists c, rest.
Qed.

Lemma trim_start_trim (s : string) : trim_start (trim s) = trim s.
Proof.
  unfold trim. destruct (trim_start_head s) as [->|(c & rest & -> & Hc)];
    [reflexivity|].
  simpl. destruct (trim_end rest); rewrite ?Hc; simpl; now rewrite Hc.
Qed.

(** Trimming twice is trimming once. *)
Lemma trim_trim (s : string) : trim (trim s) = trim s.
Proof.
  unfold trim at 1. rewrite trim_start_trim. unfold trim.
  apply trim_end_trim_end.
Qed.

End TrimFacts.

Section ParsedValues.
Import Js Dom Editor Shapes Popup.
Context `{Json}.

Lemma values_set (Q : value -> Prop) (o : obj) (k : string) (v : value) :
  Forall (fun p => Q (snd p)) o -> Q v ->
  Forall (fun p => Q (snd p)) (obj_set o k v).
Proof.
  intros Ho Hv. unfold obj_set. destruct (has_key o k).
  - induction Ho as [|[k0 v0] rest Hp Hrest IH]; simpl; [constructor|].
    destruct (k0 =? k); constructor; auto.
  - destruct (k =? "__proto__"); [exact Ho|].
    destruct (array_index k) as [n|].
    + induction Ho as [|[k0 v0] rest Hp Hrest IH]; simpl.
      * now repeat constructor.
      * destruct (array_index k0) as [m|]; [destruct (m <? n)%N|];
          repeat constructor; auto.
    + apply Forall_app. split; [exact Ho | now repeat constructor].
Qed.

(** Assigning trimmed, non-blank texts keeps an object of such texts one. *)
Lemma contact_fold_values (inputs : list node) (acc : obj) :
  Forall (fun p => exists s, snd p = VStr s /\ s <> "" /\ trim s = s) acc ->
  Forall (fun p => exists s, snd p = VStr s /\ s <> "" /\ trim s = s)
    (fold_left
       (fun contactData input =>
          if negb (trim (node_value input) =? "")
          then obj_set contactData (dataset_key input)
                 (VStr (trim (node_value input)))
          else contactData)
       inputs acc).
Proof.
  revert acc.
  induction inputs as [|input rest IH]; intros acc Hacc; simpl; [exact Hacc|].
  apply IH.
  destruct (String.eqb_spec (trim (node_value input)) "") as [Heq|Hne]; simpl;
    [exact Hacc|].
  apply (values_set (fun v => exists s, v = VStr s /\ s <> "" /\ trim s = s));
    [exact Hacc|].
  exists (trim (node_value input)). repeat split; [exact Hne|].
  apply trim_trim.
Qed.

(** X1. For every form of controls, every value of the parsed contact
    section is a string that is not empty and carries no white space around
    it. *)
Theorem parsed_contact_values_trimmed (form : list node) (doc : obj) :
  exists o,
    parseEditor "contact" (Some form) doc = VObj o
    /\ Forall (fun p => exists s, snd p = VStr s /\ s <> "" /\ trim s = s) o.
Proof.
  change (parseEditor "contact" (Some form) doc) with (parse_contact form).
  unfold parse_contact. eexists. split; [reflexivity|].
  apply contact_fold_values. constructor.
Qed.

(** A key whose lookup gives [undefined] in an object of strings is not a
    key of the object. *)
Lemma absent_of_undefined (o : obj) (c : string) :
  Forall (fun p => exists s, snd p = VStr s /\ s <> "" /\ trim s = s) o ->
  obj_get o c = VUndef ->
  has_key o c = false.
Proof.
  induction 1 as [|[k v] rest (s & Hs & _) _ IH]; simpl in *;
    [reflexivity|].
  destruct (k =? c); simpl; [congruence | exact IH].
Qed.

Lemma getVal_string (block : node) (sel : string) :
  exists s, getVal block sel = VStr s.
Proof.
  unfold getVal. destruct (querySelector sel (node_children block)); eauto.
Qed.

Lemma parse_bullets_nonblank (block : node) :
  exists bs,
    parse_bullets block = VArr (map VStr bs)
    /\ Forall (fun t => trim t <> "") bs.
Proof.
  unfold parse_bullets. eexists. split; [reflexivity|].
  apply Forall_forall. intros t Ht. apply filter_In in Ht as [_ Ht].
  apply negb_true_iff in Ht. now apply String.eqb_neq.
Qed.

Lemma filter_nonblank (bs : list string) :
  Forall (fun t => trim t <> "") bs ->
  filter (fun t => negb (trim t =? "")) bs = bs.
Proof.
  induction 1 as [|t rest Ht _ IH]; simpl; [reflexivity|].
  apply String.eqb_neq in Ht. now rewrite Ht, IH.
Qed.

(** What the parser makes of any block, section by section. *)
Lemma parse_item_any_experience (block : node) :
  exists c r d l bs,
    Forall (fun t => trim t <> "") bs
    /\ parse_item "experience" block
       = VObj [("company", VStr c); ("role", VStr r); ("dates", VStr d);
               ("location", VStr l); ("bullets", VArr (map VStr bs))].
Proof.
  destruct (getVal_string block "item-company") as (c & Hc).
  destruct (getVal_string block "item-role") as (r & Hr).
  destruct (getVal_string block "item-dates") as (d & Hd).
  destruct (getVal_string block "item-location") as (l & Hl).
  destruct (parse_bullets_nonblank block) as (bs & Hb & Hbs).
  exists c, r, d, l, bs. split; [exact Hbs|].
  unfold parse_item. simpl String.eqb. cbv iota.
  now rewrite Hc, Hr, Hd, Hl, Hb.
Qed.

Lemma parse_item_any_leadership (block : node) :
  exists o r d l bs,
    Forall (fun t => trim t <> "") bs
    /\ parse_item "leadership" block
       = VObj [("organization", VStr o); ("role", VStr r); ("dates", VStr d);
               ("location", VStr l); ("bullets", VArr (map VStr bs))].
Proof.
  destruct (getVal_string block "item-org") as (o & Ho).
  destruct (getVal_string block "item-role") as (r & Hr).
  destruct (getVal_string block "item-dates") as (d & Hd).
  destruct (getVal_string block "item-location") as (l & Hl).
  destruct (parse_bullets_nonblank block) as (bs & Hb & Hbs).
  exists o, r, d, l, bs. split; [exact Hbs|].
  unfold parse_item. simpl String.eqb. cbv iota.
  now rewrite Ho, Hr, Hd, Hl, Hb.
Qed.

Lemma parse_item_any_projects (block : node) :
  exists n t d bs,
    Forall (fun t => trim t <> "") bs
    /\ parse_item "projects" block
       = VObj [("name", VStr n); ("tech", VStr t); ("dates", VStr d);
               ("bullets", VArr (map VStr bs))].
Proof.
  destruct (getVal_string block "item-name") as (n & Hn).
  destruct (getVal_string block "item-tech") as (t & Ht).
  destruct (getVal_string block "item-dates") as (d & Hd).
  destruct (parse_bullets_nonblank block) as (bs & Hb & Hbs).
  exists n, t, d, bs. split; [exact Hbs|].
  unfold parse_item. simpl String.eqb. cbv iota.
  now rewrite Hn, Ht, Hd, Hb.
Qed.

Lemma parseEditor_list (section : string) (form : list node) (doc : obj) :
  is_list_section section = true ->
  parseEditor section (Some form) doc = parse_items section form.
Proof.
  intros Hs. destruct (list_section_cases section Hs) as [-> | [-> | ->]];
    reflexivity.
Qed.

(** X2. For every form of controls, a list section parses to one entry
    per item block; each entry has exactly the keys of its section, a
    string under every header key, and under [bullets] a list of strings
    none of which is blank. *)
Theorem parsed_entries_shape (section : string) (form : list node)
    (doc : obj) :
  is_list_section section = true ->
  exists entries,
    parseEditor section (Some form) doc = VArr entries
    /\ length entries = length (querySelectorAll "item-block" form)
    /\ Forall
         (fun entry =>
            exists o bs,
              entry = VObj o
              /\ keys o = parsed_keys section
              /\ Forall (fun p => fst p <> "bullets" ->
                                  exists s, snd p = VStr s) o
              /\ obj_get o "bullets" = VArr (map VStr bs)
              /\ Forall (fun t => trim t <> "") bs)
         entries.
Proof.
  intros Hs. rewrite (parseEditor_list section form doc Hs).
  unfold parse_items. eexists. split; [reflexivity|].
  split; [apply length_map|].
  apply Forall_forall. intros entry Hin.
  apply in_map_iff in Hin as (block & <- & _).
  destruct (list_section_cases section Hs) as [-> | [-> | ->]].
  - destruct (parse_item_any_experience block)
      as (c & r & d & l & bs & Hbs & ->).
    eexists; exists bs. repeat split; [ | exact Hbs].
    repeat constructor; simpl; eauto. intros Hne. congruence.
  - destruct (parse_item_any_projects block) as (n & t & d & bs & Hbs & ->).
    eexists; exists bs. repeat split; [ | exact Hbs].
    repeat constructor; simpl; eauto. intros Hne. congruence.
  - destruct (parse_item_any_leadership block)
      as (o & r & d & l & bs & Hbs & ->).
    eexists; exists bs. repeat split; [ | exact Hbs].
    repeat constructor; simpl; eauto. intros Hne. congruence.
Qed.

(** *** Parsing what was parsed *)

Lemma reparse_experience (block : node) :
  exists block',
    renderItemBlock (parse_item "experience" block) "experience" = Some block'
    /\ parse_item "experience" block' = parse_item "experience" block.
Proof.
  destruct (parse_item_any_experience block)
    as (c & r & d & l & bs & Hbs & ->).
  exists (item_block (experience_header c r l d) (map bullet_row bs)).
  split.
  - unfold renderItemBlock, item_header. simpl String.eqb. cbv iota.
    rewrite (slot_field _ "role" ["title"] r),
      (slot_field _ "dates" ["date"] d), (slot_field _ "location" [] l),
      (slot_field _ "company" [] c);
      try reflexivity; repeat constructor.
    simpl. rewrite createBulletRow_rows, safe_text_strings. reflexivity.
  - rewrite parse_item_experience, filter_nonblank; auto.
Qed.

Lemma reparse_leadership (block : node) :
  exists block',
    renderItemBlock (parse_item "leadership" block) "leadership" = Some block'
    /\ parse_item "leadership" block' = parse_item "leadership" block.
Proof.
  destruct (parse_item_any_leadership block)
    as (o & r & d & l & bs & Hbs & ->).
  exists (item_block (leadership_header o r l d) (map bullet_row bs)).
  split.
  - unfold renderItemBlock, item_header. simpl String.eqb. cbv iota.
    rewrite (slot_field _ "organization" [] o), (slot_field _ "role" [] r),
      (slot_field _ "dates" [] d), (slot_field _ "location" [] l);
      try reflexivity; repeat constructor.
    simpl. rewrite createBulletRow_rows, safe_text_strings. reflexivity.
  - rewrite parse_item_leadership, filter_nonblank; auto.
Qed.

Lemma reparse_projects (block : node) :
  exists block',
    renderItemBlock (parse_item "projects" block) "projects" = Some block'
    /\ parse_item "projects" block' = parse_item "projects" block.
Proof.
  destruct (parse_item_any_projects block) as (n & t & d & bs & Hbs & ->).
  exists (item_block (project_header n t d) (map bullet_row bs)).
  split.
  - unfold renderItemBlock, item_header. simpl String.eqb. cbv iota.
    rewrite (slot_field _ "dates" ["date"] d), (slot_field _ "name" [] n),
      (slot_field _ "tech" [] t);
      try reflexivity; repeat constructor.
    simpl. rewrite createBulletRow_rows, safe_text_strings. reflexivity.
  - rewrite parse_item_projects, filter_nonblank; auto.
Qed.

Lemma reparse_items (section : string) (blocks : list node) :
  is_list_section section = true ->
  exists blocks',
    traverse (fun item => renderItemBlock item section)
      (map (parse_item section) blocks) = Some blocks'
    /\ map (parse_item section) blocks' = map (parse_item section) blocks.
Proof.
  intros Hs. induction blocks as [|block rest (rest' & Hrest & Heq)].
  - now exists [].
  - assert (Hone : exists block',
               renderItemBlock (parse_item section block) section
               = Some block'
               /\ parse_item section block' = parse_item section block).
    { destruct (list_section_cases section Hs) as [-> | [-> | ->]];
        [apply reparse_experience | apply reparse_projects
        | apply reparse_leadership]. }
    destruct Hone as (block' & Hblock & Hsame).
    exists (block' :: rest'). simpl. rewrite Hblock, Hrest. simpl.
    now rewrite Hsame, Heq.
Qed.

(** X3. Committing is idempotent for the summary and the list sections:
    when the value parsed from a form of markup-free text is rendered and
    parsed again, the same value comes back.  So a section that is left a
    second time without an edit is committed unchanged. *)
Theorem reparse_is_stable (section : string) (form : list node)
    (doc : obj) :
  section = "summary" \/ is_list_section section = true ->
  plain_form form = true ->
  exists view,
    render_view section (parseEditor section (Some form) doc) = Some view
    /\ parseEditor section (Some view) doc
       = parseEditor section (Some form) doc.
Proof.
  intros [-> | Hs] _.
  - assert (Hstr : exists s, parse_summary form = VStr s).
    { unfold parse_summary.
      destruct (getElementById "edit_summary_text" form); eauto. }
    destruct Hstr as (s & Hstr).
    exists (summary_form s). simpl. rewrite Hstr.
    split; [apply render_summary_string | apply summary_round_trip].
  - rewrite (parseEditor_list section form doc Hs).
    destruct (reparse_items section (querySelectorAll "item-block" form) Hs)
      as (blocks' & Hblocks & Hsame).
    exists [div_id "itemsList" blocks'; button []].
    assert (Hview : render_view section (parse_items section form)
                    = Some [div_id "itemsList" blocks'; button []]).
    { destruct (list_section_cases section Hs) as [-> | [-> | ->]];
        unfold render_view; simpl String.eqb; cbv iota;
        unfold render_items, parse_items; simpl truthy; cbv iota;
        rewrite Hblocks; reflexivity. }
    split; [exact Hview|].
    rewrite (parseEditor_list section _ doc Hs).
    destruct (render_items_inv section (parse_items section form)
                [div_id "itemsList" blocks'; button []])
      as (items & blocks & Hitems & Htrav & Hquery).
    { destruct (list_section_cases section Hs) as [-> | [-> | ->]];
        exact Hview. }
    unfold parse_items in *. simpl in Hitems. injection Hitems as <-.
    rewrite Hquery. rewrite Hblocks in Htrav. injection Htrav as <-.
    now rewrite Hsame.
Qed.

End ParsedValues.

Section ParsedExamples.
Import Js Dom Editor Shapes Popup SampleJson Examples.

(** A projects form with one block that has lost its inputs. *)
Lemma parsed_entries_example :
  exists entries,
    parseEditor "projects"
      (Some [div_id "itemsList" [div ["item-block"] []]; button []])
      a_document = VArr entries
    /\ length entries
       = length
           (querySelectorAll "item-block"
              [div_id "itemsList" [div ["item-block"] []]; button []])
    /\ Forall
         (fun entry =>
            exists o bs,
              entry = VObj o
              /\ keys o = parsed_keys "projects"
              /\ Forall (fun p => fst p <> "bullets" ->
                                  exists s, snd p = VStr s) o
              /\ obj_get o "bullets" = VArr (map VStr bs)
              /\ Forall (fun t => trim t <> "") bs)
         entries.
Proof.
  apply (parsed_entries_shape "projects"
           [div_id "itemsList" [div ["item-block"] []]; button []]
           a_document).
  reflexivity.
Defined.

(** A form a user could have typed: the summary with a new text. *)
Lemma reparse_is_stable_example :
  exists view,
    render_view "summary"
      (parseEditor "summary" (Some (summary_form "new text"))
         a_document) = Some view
    /\ parseEditor "summary" (Some view) a_document
       = parseEditor "summary" (Some (summary_form "new text"))
           a_document.
Proof.
  apply (reparse_is_stable "summary" (summary_form "new text")
           a_document); [now left | reflexivity].
Defined.

End ParsedExamples.

(** ** When the renderer gives up, and what a visit does to a section *)

Section RenderFacts.
Import Js Dom Editor Shapes Popup.
Context `{Json}.


Lemma traverse_map_inv {A B} (f : A -> option B) (g : A -> B) (l : list A)
    (l' : list B) :
  (forall x y, f x = Some y -> y = g x) ->
  traverse f l = Some l' -> l' = map g l.
Proof.
  intros Hfg. revert l'.
  induction l as [|x rest IH]; simpl; intros l'; [now intros [= <-]|].
  destruct (f x) as [y|] eqn:Hx; simpl; [|discriminate].
  destruct (traverse f rest) as [ys|]; simpl; [|discriminate].
  intros [= <-]. now rewrite (Hfg x y Hx), (IH ys eq_refl).
Qed.


(** *** Values that convert to a string *)

Lemma deep_printable_printable :
  forall v, deep_printable v = true -> printable v = true.
Proof.
  fix IH 1. intros [| |b|s|items|o] Hv; try reflexivity.
  - simpl in *. induction items as [|x rest IHrest]; [reflexivity|].
    simpl in *. apply andb_true_iff in Hv as [Hx Hrest].
    rewrite (IHrest Hrest), andb_true_r.
    pose proof (IH x Hx) as Hp. destruct x; try reflexivity; exact Hp.
  - simpl in *. now apply andb_true_iff in Hv as [Hts _].
Qed.

Lemma to_string_deep (v : value) :
  deep_printable v = true -> to_string v = Some (text_of v).
Proof.
  intros Hv. unfold to_string. now rewrite deep_printable_printable.
Qed.

Lemma deep_printable_get (o : obj) (k : string) :
  deep_printable (VObj o) = true -> deep_printable (obj_get o k) = true.
Proof.
  simpl. intros Ho. apply andb_true_iff in Ho as [_ Ho].
  induction o as [|[k0 v0] rest IH]; simpl in *; [reflexivity|].
  apply andb_true_iff in Ho as [Hv Hrest].
  destruct (k0 =? k); auto.
Qed.

Lemma deep_printable_prop (v x : value) (k : string) :
  deep_printable v = true -> prop v k = Some x -> deep_printable x = true.
Proof.
  intros Hv Hx. destruct v as [| |b|s|items|o]; try discriminate;
    injection Hx as <-; try reflexivity.
  now apply deep_printable_get.
Qed.

Lemma deep_printable_or_else (a b : value) :
  deep_printable a = true -> deep_printable b = true ->
  deep_printable (or_else a b) = true.
Proof. intros Ha Hb. unfold or_else. now destruct (truthy a). Qed.





(** *** The list sections *)



(** *** The contact section *)

Lemma contact_value_some (data : value) (key : string) :
  prop data key <> None -> exists v, contact_value data key = Some v.
Proof.
  intros Hdata. unfold contact_value.
  destruct data as [| |b|s|items|o]; simpl in *; try congruence.
  - destruct (key =? "linkedin_url"), (key =? "portfolio_url"); simpl; eauto.
  - destruct (key =? "linkedin_url"), (key =? "portfolio_url"); simpl; eauto.
  - destruct (key =? "linkedin_url"), (key =? "portfolio_url"); simpl; eauto.
  - destruct (negb (truthy (obj_get o key)) && (key =? "linkedin_url"));
      simpl.
    + destruct (negb (truthy (obj_get o "linkedin"))
                && (key =? "portfolio_url")); simpl; eauto.
    + destruct (negb (truthy (obj_get o key)) && (key =? "portfolio_url"));
        simpl; eauto.
Qed.

Lemma contact_value_deep (data : value) (key : string) (v : value) :
  deep_printable data = true -> contact_value data key = Some v ->
  deep_printable v = true.
Proof.
  intros Hdeep. unfold contact_value.
  destruct (prop data key) as [v1|] eqn:H1; simpl; [|discriminate].
  pose proof (deep_printable_prop data v1 key Hdeep H1) as Hv1.
  assert (Hstep : forall (c : bool) (alias : string) (x y : value),
             deep_printable x = true ->
             (if c then prop data alias else Some x) = Some y ->
             deep_printable y = true).
  { intros [|] alias x y Hx Hy.
    - exact (deep_printable_prop data y alias Hdeep Hy).
    - now injection Hy as <-. }
  destruct (if negb (truthy v1) && (key =? "linkedin_url")
            then prop data "linkedin" else Some v1) as [v2|] eqn:H2;
    simpl; [|discriminate].
  pose proof (Hstep _ _ _ _ Hv1 H2) as Hv2.
  destruct (if negb (truthy v2) && (key =? "portfolio_url")
            then prop data "portfolio" else Some v2) as [v3|] eqn:H3;
    simpl; [|discriminate].
  pose proof (Hstep _ _ _ _ Hv2 H3) as Hv3.
  intros [= <-]. now apply deep_printable_or_else.
Qed.

Lemma contact_data_deep (data : value) :
  deep_printable data = true -> deep_printable (contact_data data) = true.
Proof.
  intros Hdeep. unfold contact_data.
  destruct data as [| |b|s|items|o]; try exact Hdeep; try reflexivity.
  - now destruct b.
  - unfold or_else. simpl. now destruct (s =? "").
Qed.

(** The contact form, when it is made: one field per key of the table,
    holding the text shown for it. *)
Lemma render_contact_inv (data : value) (view : list node) :
  render_contact data = Some view ->
  view
  = map (fun key => contact_field key (shown_contact data key))
      contact_fields.
Proof.
  unfold render_contact. fold (contact_data data).
  apply traverse_map_inv. intros key row. unfold contact_row, shown_contact.
  destruct (contact_value (contact_data data) key) as [v|]; simpl;
    [|discriminate].
  unfold to_string. destruct (printable v); simpl; [|discriminate].
  now intros [= <-].
Qed.

Lemma render_contact_some (data : value) :
  data <> VNull -> deep_printable data = true ->
  render_contact data
  = Some (map (fun key => contact_field key (shown_contact data key))
            contact_fields).
Proof.
  intros Hdata Hdeep. unfold render_contact. fold (contact_data data).
  apply traverse_total. apply Forall_forall. intros key _.
  unfold contact_row, shown_contact.
  destruct (contact_value_some (contact_data data) key) as (v & Hv).
  { unfold contact_data. destruct data; simpl; congruence. }
  rewrite Hv. simpl.
  now rewrite (to_string_deep v
                 (contact_value_deep _ key v (contact_data_deep data Hdeep)
                    Hv)).
Qed.


(** What the parser reads from the contact form. *)
Lemma parse_contact_shown (data : value) (c : string) :
  exists p,
    parse_contact
      (map (fun key => contact_field key (shown_contact data key))
         contact_fields) = VObj p
    /\ Forall (fun q => exists s, snd q = VStr s /\ s <> "" /\ trim s = s) p
    /\ obj_get p c
       = if among contact_fields c && nonblank (shown_contact data c)
         then VStr (trim (shown_contact data c)) else VUndef.
Proof.
  eexists. split; [reflexivity|]. split.
  - apply contact_fold_values. constructor.
  - rewrite contact_inputs. now apply parse_contact_lookup.
Qed.

(** *** The skills and the summary *)






(** X5. A visit to the contact section keeps the six fields of the form
    and nothing else: when the contact form is made and holds markup-free
    text, the parsed object holds under each of the six keys the trimmed
    text shown for it, when that is not blank, and no other key.  What the
    data holds under any other key is gone after the visit. *)
Theorem contact_visit_keeps_six_fields (data : value) (view : list node)
    (doc : obj) :
  render_view "contact" data = Some view ->
  plain_form view = true ->
  exists p,
    parseEditor "contact" (Some view) doc = VObj p
    /\ (forall c, has_key p c = true -> In c contact_fields)
    /\ (forall c,
          obj_get p c
          = if among contact_fields c && nonblank (shown_contact data c)
            then VStr (trim (shown_contact data c)) else VUndef).
Proof.
  intros Hview _. apply render_contact_inv in Hview. subst view.
  destruct (parse_contact_shown data "") as (p & Hp & Hvalues & _).
  exists p. split; [exact Hp|].
  assert (Hall : forall c,
             obj_get p c
             = if among contact_fields c && nonblank (shown_contact data c)
               then VStr (trim (shown_contact data c)) else VUndef).
  { intros c. destruct (parse_contact_shown data c) as (p' & Hp' & _ & Hc).
    congruence. }
  split; [|exact Hall].
  intros c Hc. apply among_In.
  destruct (among contact_fields c) eqn:Hin; [reflexivity|].
  specialize (Hall c). rewrite Hin in Hall. simpl in Hall.
  rewrite (absent_of_undefined p c Hvalues Hall) in Hc. discriminate.
Qed.

Lemma shown_alias (o : obj) (key alias s : string) :
  (key = "linkedin_url" /\ alias = "linkedin")
  \/ (key = "portfolio_url" /\ alias = "portfolio") ->
  truthy (obj_get o key) = false ->
  obj_get o alias = VStr s ->
  shown_contact (VObj o) key = s.
Proof.
  intros [[-> ->] | [-> ->]] Hkey Halias;
    unfold shown_contact, contact_data, contact_value; simpl;
    rewrite Hkey; simpl; rewrite ?Hkey, Halias; simpl;
    rewrite ?Bool.andb_false_r; simpl; apply text_string.
Qed.

(** X6. The legacy contact keys do not survive a visit: when the data
    holds nothing under [linkedin_url] (or [portfolio_url]) but a text that
    is not blank under [linkedin] (or [portfolio]), and the contact form is
    made and holds markup-free text, the parsed object holds the trimmed
    text under the long key and has lost the short one. *)
Theorem legacy_contact_key_renamed (o : obj) (key alias s : string)
    (view : list node) (doc : obj) :
  (key = "linkedin_url" /\ alias = "linkedin")
  \/ (key = "portfolio_url" /\ alias = "portfolio") ->
  truthy (obj_get o key) = false ->
  obj_get o alias = VStr s ->
  nonblank s = true ->
  render_view "contact" (VObj o) = Some view ->
  plain_form view = true ->
  exists p,
    parseEditor "contact" (Some view) doc = VObj p
    /\ obj_get p key = VStr (trim s)
    /\ has_key p alias = false.
Proof.
  intros Hnames Hkey Halias Hs Hview _.
  apply render_contact_inv in Hview. subst view.
  destruct (parse_contact_shown (VObj o) key) as (p & Hp & Hvalues & Hget).
  exists p. split; [exact Hp|]. split.
  - rewrite Hget, (shown_alias o key alias s Hnames Hkey Halias), Hs.
    now destruct Hnames as [[-> _] | [-> _]].
  - destruct (parse_contact_shown (VObj o) alias)
      as (p' & Hp' & _ & Habsent).
    assert (Hsame : p' = p) by congruence. subst p'.
    assert (Hout : among contact_fields alias = false)
      by (destruct Hnames as [[_ ->] | [_ ->]]; reflexivity).
    rewrite Hout in Habsent. simpl in Habsent.
    now apply absent_of_undefined.
Qed.

(** X7. Contact data stored as a plain string of markup-free text comes
    back from a visit as an object: the trimmed string under [location], or
    the empty object when the string is blank. *)
Theorem contact_string_becomes_location (s : string) (doc : obj) :
  plain_text s = true ->
  exists view,
    render_view "contact" (VStr s) = Some view
    /\ parseEditor "contact" (Some view) doc
       = if nonblank s then VObj [("location", VStr (trim s))] else VObj [].
Proof.
  intros _. eexists. split.
  - apply render_contact_some; [discriminate | reflexivity].
  - assert (Hloc : shown_contact (VStr s) "location" = s).
    { unfold shown_contact, contact_data, contact_value, or_else. simpl.
      rewrite !Bool.andb_false_r. simpl.
      destruct (String.eqb_spec s "") as [-> | Hs]; simpl; [reflexivity|].
      rewrite (eqb_false_of_neq _ _ Hs). simpl.
      now rewrite (eqb_false_of_neq _ _ Hs). }
    assert (Hrest : forall k, k <> "location" ->
                      shown_contact (VStr s) k = "").
    { intros k Hk. unfold shown_contact, contact_data, contact_value.
      cbn [not_typeof_object prop obj_get bind].
      rewrite (eqb_false_of_neq _ _ (not_eq_sym Hk)).
      change ("location" =? "linkedin") with false.
      change ("location" =? "portfolio") with false.
      cbv iota. cbn [truthy negb andb].
      destruct (k =? "linkedin_url"), (k =? "portfolio_url"); reflexivity. }
    unfold contact_fields. cbn [map].
    rewrite Hloc, !Hrest by discriminate.
    match goal with
    | |- ?parsed = _ =>
        change parsed
          with (VObj (if negb (trim s =? "")
                      then obj_set [] "location" (VStr (trim s)) else []))
    end.
    unfold nonblank. destruct (trim s =? ""); reflexivity.
Qed.

Lemma known_section_cases (section : string) :
  known_section section = true ->
  section = "summary" \/ section = "contact" \/ section = "skills"
  \/ is_list_section section = true.
Proof.
  unfold known_section. intros Hk.
  destruct (String.eqb_spec section "summary"); [now left|].
  destruct (String.eqb_spec section "contact"); [now right; left|].
  destruct (String.eqb_spec section "skills"); [now right; right; left|].
  now right; right; right.
Qed.

(** A section whose data is missing or falsy gets an empty form, which
    parses to the empty value of the section. *)
Lemma falsy_view (section : string) (data : value) (doc : obj) :
  known_section section = true ->
  truthy data = false ->
  (section = "contact" -> data <> VNull) ->
  exists view,
    render_view section data = Some view
    /\ parseEditor section (Some view) doc = empty_value section.
Proof.
  intros Hk Hdata Hnull.
  assert (Hcases : data = VUndef \/ data = VNull \/ data = VBool false
                   \/ data = VStr "").
  { destruct data as [| |[|]|s|items|o]; simpl in Hdata; try discriminate;
      auto.
    apply negb_false_iff, String.eqb_eq in Hdata. subst. auto. }
  destruct (known_section_cases section Hk) as [-> | [-> | [-> | Hs]]].
  - destruct Hcases as [-> | [-> | [-> | ->]]]; eexists; split; reflexivity.
  - destruct Hcases as [-> | [-> | [-> | ->]]];
      try (now destruct (Hnull eq_refl)); eexists; split; reflexivity.
  - destruct Hcases as [-> | [-> | [-> | ->]]]; eexists; split; reflexivity.
  - destruct (list_section_cases section Hs) as [-> | [-> | ->]];
      destruct Hcases as [-> | [-> | [-> | ->]]]; eexists; split; reflexivity.
Qed.


End RenderFacts.

Section RenderExamples.
Import Js Dom Editor Shapes Popup SampleJson Examples.


(** A contact section with a key the form has no field for. *)
Lemma contact_visit_example :
  exists p,
    parseEditor "contact"
      (Some
         (map (fun key =>
                 contact_field key
                   (shown_contact
                      (VObj [("email", VStr "a@b.c");
                             ("twitter", VStr "@me")]) key))
            contact_fields)) a_document = VObj p
    /\ (forall c, has_key p c = true -> In c contact_fields)
    /\ (forall c,
          obj_get p c
          = if among contact_fields c
               && nonblank
                    (shown_contact
                       (VObj [("email", VStr "a@b.c");
                              ("twitter", VStr "@me")]) c)
            then VStr (trim
                         (shown_contact
                            (VObj [("email", VStr "a@b.c");
                                   ("twitter", VStr "@me")]) c))
            else VUndef).
Proof.
  apply (contact_visit_keeps_six_fields
           (VObj [("email", VStr "a@b.c"); ("twitter", VStr "@me")])
           (map (fun key =>
                   contact_field key
                     (shown_contact
                        (VObj [("email", VStr "a@b.c");
                               ("twitter", VStr "@me")]) key))
              contact_fields)
           a_document); reflexivity.
Defined.

(** A contact section of the legacy shape. *)
Lemma legacy_contact_example :
  exists p,
    parseEditor "contact"
      (Some
         (map (fun key =>
                 contact_field key
                   (shown_contact (VObj [("linkedin", VStr "in/me")]) key))
            contact_fields)) a_document = VObj p
    /\ obj_get p "linkedin_url" = VStr (trim "in/me")
    /\ has_key p "linkedin" = false.
Proof.
  apply (legacy_contact_key_renamed [("linkedin", VStr "in/me")]
           "linkedin_url" "linkedin" "in/me"
           (map (fun key =>
                   contact_field key
                     (shown_contact (VObj [("linkedin", VStr "in/me")]) key))
              contact_fields)
           a_document);
    [now left | reflexivity | reflexivity | reflexivity | reflexivity
    | reflexivity].
Defined.

(** A contact section that is only a place name. *)
Lemma contact_string_example :
  exists view,
    render_view "contact" (VStr " Boston ") = Some view
    /\ parseEditor "contact" (Some view) a_document
       = if nonblank " Boston "
         then VObj [("location", VStr (trim " Boston "))] else VObj [].
Proof.
  apply (contact_string_becomes_location " Boston " a_document).
  reflexivity.
Defined.

End RenderExamples.

(** ** The edit session beyond a single step *)

Section SessionFacts.
Import Js Dom Editor Shapes Popup.
Context `{Json}.

Lemma tracked_some (p : option string) (a : string) :
  tracked p = Some a -> p = Some a /\ a <> "".
Proof.
  destruct p as [a'|]; simpl; [|discriminate].
  destruct (String.eqb_spec a' ""); [discriminate|].
  intros [= <-]. now split.
Qed.

(** The document a change of section commits. *)
Lemma committed_other (st : state) (doc : obj) (form : list node)
    (k : string) :
  previousSection st <> Some k ->
  obj_get
    (match tracked (previousSection st) with
     | Some a => commit doc a (parseEditor a (Some form) doc)
     | None => doc
     end) k
  = obj_get doc k.
Proof.
  intros Hk. destruct (tracked (previousSection st)) as [a|] eqn:Ha;
    [|reflexivity].
  apply tracked_some in Ha as [Ha _]. apply commit_other. congruence.
Qed.

(** One change of section, spelled out. *)
Lemma select_section_steps (st : state) (doc : obj) (form : list node)
    (b : string) :
  currentEditingData st = Some doc ->
  formContainer st = Some form ->
  let doc1 :=
    match tracked (previousSection st) with
    | Some a => commit doc a (parseEditor a (Some form) doc)
    | None => doc
    end in
  let st1 := select_section b st in
  currentEditingData st1 = Some doc1
  /\ sectionSelect st1 = b
  /\ formContainer st1
     = Some (match render_view b (obj_get doc1 b) with
             | Some view => view
             | None => []
             end)
  /\ previousSection st1
     = (match render_view b (obj_get doc1 b) with
        | Some _ => Some b
        | None => previousSection st
        end)
  /\ storage st1 = storage st
  /\ requests st1 = requests st.
Proof.
  intros Hdoc Hform doc1 st1. subst doc1 st1.
  unfold select_section, sectionSelect_change.
  cbn [with_select currentEditingData previousSection formContainer
       sectionSelect].
  rewrite Hdoc, Hform.
  destruct (tracked (previousSection st)) as [a|]; unfold renderEditor;
    cbn [with_doc with_select currentEditingData previousSection
         formContainer sectionSelect];
    rewrite ?Hform;
    match goal with
    | |- context [render_view b ?d] => destruct (render_view b d)
    end; repeat split.
Qed.


Lemma empty_value_not_null (section : string) : empty_value section <> VNull.
Proof.
  unfold empty_value. destruct (section =? "summary"); [discriminate|].
  destruct ((section =? "contact") || (section =? "skills")); discriminate.
Qed.

(** For a section the editor has a form for, the parser reads the form
    only. *)
Lemma parse_known_reads_form (section : string) (form : list node)
    (doc doc' : obj) :
  known_section section = true ->
  parseEditor section (Some form) doc = parseEditor section (Some form) doc'.
Proof.
  intros Hk.
  destruct (known_section_cases section Hk) as [-> | [-> | [-> | Hs]]];
    try reflexivity.
  now rewrite !(parseEditor_list section form _ Hs).
Qed.

(** X8. Looking at a section the document does not have adds it: when
    the data of a section is missing or falsy, a visit to the section
    followed by any change of section leaves the empty value of the
    section in the document (the empty string, the empty object or the
    empty list). *)
Theorem visit_adds_missing_section (st : state) (doc : obj)
    (form : list node) (b c : string) :
  currentEditingData st = Some doc ->
  formContainer st = Some form ->
  known_section b = true ->
  previousSection st <> Some b ->
  truthy (obj_get doc b) = false ->
  (b = "contact" -> obj_get doc b <> VNull) ->
  exists doc',
    currentEditingData (select_section c (select_section b st)) = Some doc'
    /\ obj_get doc' b = empty_value b.
Proof.
  intros Hdoc Hform Hk Hprev Hfalsy Hnull.
  destruct (select_section_steps st doc form b Hdoc Hform)
    as (Hdoc1 & _ & Hform1 & Hprev1 & _).
  rewrite (committed_other st doc form b Hprev) in Hform1, Hprev1.
  destruct (falsy_view b (obj_get doc b) doc Hk Hfalsy Hnull)
    as (view & Hview & Hparse).
  rewrite Hview in Hform1, Hprev1.
  destruct (select_section_steps (select_section b st) _ view c Hdoc1 Hform1)
    as (Hdoc2 & _).
  rewrite Hprev1, (tracked_nonempty b (known_section_nonempty b Hk)) in Hdoc2.
  eexists. split; [exact Hdoc2|].
  rewrite (parse_known_reads_form b view _ doc Hk), Hparse.
  apply commit_same; [apply empty_value_not_null | now apply known_assigns].
Qed.




(** *** Opening the editor *)

Lemma deep_copy_json : forall v, is_json v = true -> deep_copy v = v.
Proof.
  fix IH 1. intros [| |b|s|items|o] Hv; try reflexivity; try discriminate.
  - simpl in *. f_equal.
    induction items as [|x rest IHrest]; [reflexivity|].
    simpl in Hv. apply andb_true_iff in Hv as [Hx Hrest].
    simpl. rewrite (IHrest Hrest). f_equal.
    pose proof (IH x Hx) as Hcopy.
    destruct x; try discriminate; try reflexivity; exact Hcopy.
  - simpl in *. f_equal.
    induction o as [|[k x] rest IHrest]; [reflexivity|].
    simpl in Hv. apply andb_true_iff in Hv as [Hx Hrest].
    rewrite (IHrest Hrest).
    pose proof (IH x Hx) as Hcopy.
    destruct x; try discriminate; try reflexivity; now rewrite Hcopy.
Qed.

Lemma copy_obj_json (o : obj) : is_json (VObj o) = true -> copy_obj o = o.
Proof.
  intros Ho. unfold copy_obj. now rewrite (deep_copy_json (VObj o) Ho).
Qed.

(** X12. The first open works on the stored document: with no editing
    copy yet, nothing tracked and a stored document, the edit button makes
    the stored document the editing copy, shows the editor in place of the
    actions, raises no alert and leaves the store alone. *)
Theorem first_open_loads_snapshot (st : state) (data : obj) :
  currentEditingData st = None ->
  previousSection st = None ->
  lastResumeData (storage st) = Some data ->
  is_json (VObj data) = true ->
  let st' := editBtn_click st in
  currentEditingData st' = Some data
  /\ editorUI st' = true
  /\ actionsDiv st' = false
  /\ storage st' = storage st
  /\ alerts st' = alerts st.
Proof.
  intros Hnone Hprev Hstored Hjson st'. subst st'.
  unfold editBtn_click. rewrite Hnone, Hstored, (copy_obj_json data Hjson).
  unfold sectionSelect_change.
  cbn [with_display with_doc currentEditingData previousSection
       formContainer sectionSelect].
  rewrite Hprev. cbn [tracked].
  destruct (renderEditor (sectionSelect st) (obj_get data (sectionSelect st))
              (formContainer st)) as [form [|]];
    repeat split.
Qed.

(** X13. Saved edits survive a reload: after a regeneration that
    succeeded, a popup that is loaded afresh from the store shows the new
    view URL and the stored status with the actions visible, and its edit
    button opens the editor on a copy of the document that was saved. *)
Theorem saved_edits_survive_reload (st : state) (doc : obj)
    (data url : value) (section : string) :
  currentEditingData st = Some doc ->
  prop data "status" = Some (VStr "success") ->
  prop data "view_url" = Some url ->
  truthy url = true ->
  let saved :=
    commit doc (sectionSelect st)
      (parseEditor (sectionSelect st) (formContainer st) doc) in
  let stored :=
    storage (saveRegenBtn_settle (Body data) (saveRegenBtn_click st)) in
  let loaded := Examples.popup_loaded stored section in
  currentViewUrl loaded = url
  /\ actionsDiv loaded = true
  /\ statusDiv loaded = "Resume updated."
  /\ currentEditingData loaded = None
  /\ currentEditingData (editBtn_click loaded) = Some (copy_obj saved)
  /\ (is_json (VObj saved) = true ->
      currentEditingData (editBtn_click loaded) = Some saved).
Proof.
  intros Hdoc Hstatus Hurl Htruthy saved stored loaded.
  destruct (saveRegenBtn_click_doc st doc Hdoc) as (Hsaved & Hstore & _).
  assert (Hstored : stored
                    = mkStore url (VStr "Resume updated.")
                        (lastCompany (storage st)) (Some saved)
                        (lastJdText (storage st))
                        (lastJobContext (storage st))).
  { subst stored. unfold saveRegenBtn_settle. rewrite Hstatus, Hurl.
    simpl. rewrite Hsaved. unfold save_state. now rewrite Hstore. }
  subst loaded. rewrite Hstored. unfold Examples.popup_loaded.
  cbn [lastViewUrl lastStatus]. rewrite Htruthy.
  assert (Hopen : currentEditingData
                    (editBtn_click
                       (mkState None None (Some []) section url
                          (mkStore url (VStr "Resume updated.")
                             (lastCompany (storage st)) (Some saved)
                             (lastJdText (storage st))
                             (lastJobContext (storage st)))
                          false true "Resume updated."
                          (false, "Save & Regenerate") [] [] []))
                  = Some (copy_obj saved)).
  { unfold editBtn_click, sectionSelect_change. simpl.
    destruct (render_view section (obj_get (copy_obj saved) section));
      reflexivity. }
  repeat split; try exact Hopen.
  intros Hjson. etransitivity; [exact Hopen|].
  now rewrite (copy_obj_json saved Hjson).
Qed.


(** *** Runs *)

Lemma sectionSelect_change_frame (st : state) :
  storage (sectionSelect_change st) = storage st
  /\ currentViewUrl (sectionSelect_change st) = currentViewUrl st.
Proof.
  unfold sectionSelect_change.
  destruct (currentEditingData st) as [doc|]; [|now split].
  destruct (renderEditor _ _ _) as [form [|]]; now split.
Qed.

Lemma step_frame (e : event) (st : state) :
  succeeds e = false ->
  storage (step e st) = storage st
  /\ currentViewUrl (step e st) = currentViewUrl st.
Proof.
  intros He. destruct e as [| |section|f| | |r|]; simpl.
  - unfold editBtn_click.
    destruct (currentEditingData st) as [doc|];
      [|destruct (lastResumeData (storage st)) as [data|]];
      try (now split);
      match goal with
      | |- context [sectionSelect_change ?s] =>
          destruct (sectionSelect_change_frame s) as [-> ->]
      end; now split.
  - now split.
  - unfold select_section.
    destruct (sectionSelect_change_frame (with_select section st))
      as [-> ->].
    now split.
  - now split.
  - now split.
  - unfold saveRegenBtn_click. destruct (currentEditingData st); now split.
  - simpl in He. apply negb_false_iff in He.
    destruct (save_failure_frame r st He) as (Hs & Hu & _). now split.
  - unfold previewBtn_click. destruct (truthy (currentViewUrl st)); now split.
Qed.

(** X14. Only a regeneration that succeeded changes what is stored: along
    any run of opening, timer, section changes, edits, cancels, previews,
    saves and answers, as long as no answer is a success, the store and the
    view URL stay what they were.  Edits live in the popup only. *)
Theorem unsuccessful_runs_keep_storage (trace : list event) (st : state) :
  forallb (fun e => negb (succeeds e)) trace = true ->
  storage (run trace st) = storage st
  /\ currentViewUrl (run trace st) = currentViewUrl st.
Proof.
  unfold run. revert st.
  induction trace as [|e rest IH]; intros st Hrun; [now split|].
  simpl in Hrun. apply andb_true_iff in Hrun as [He Hrest].
  apply negb_true_iff in He. simpl.
  destruct (IH (step e st) Hrest) as [-> ->].
  exact (step_frame e st He).
Qed.

Lemma has_key_set (o : obj) (k k' : string) (v : value) :
  has_key o k' = true -> has_key (obj_set o k v) k' = true.
Proof.
  intros Hk. apply has_key_In, In_keys_set. right. now apply has_key_In.
Qed.

Lemma has_key_commit (doc : obj) (a k : string) (saved : value) :
  has_key doc k = true -> has_key (commit doc a saved) k = true.
Proof.
  intros Hk. unfold commit. destruct (not_null saved); [|exact Hk].
  now apply has_key_set.
Qed.

Lemma sectionSelect_change_keeps (st : state) (doc : obj) :
  currentEditingData st = Some doc ->
  exists doc',
    currentEditingData (sectionSelect_change st) = Some doc'
    /\ forall k, has_key doc k = true -> has_key doc' k = true.
Proof.
  intros Hdoc. unfold sectionSelect_change. rewrite Hdoc.
  destruct (tracked (previousSection st)) as [a|];
    destruct (renderEditor _ _ _) as [form [|]];
    eexists; (split; [reflexivity|]); intros k Hk;
    try (now apply has_key_commit); exact Hk.
Qed.

Lemma step_keeps (e : event) (st : state) (doc : obj) :
  currentEditingData st = Some doc ->
  exists doc',
    currentEditingData (step e st) = Some doc'
    /\ forall k, has_key doc k = true -> has_key doc' k = true.
Proof.
  intros Hdoc.
  assert (Hsame : forall st', currentEditingData st' = Some doc ->
            exists doc',
              currentEditingData st' = Some doc'
              /\ forall k, has_key doc k = true -> has_key doc' k = true)
    by (intros st' Hst'; exists doc; now split).
  destruct e as [| |section|f| | |r|]; simpl.
  - unfold editBtn_click. rewrite Hdoc.
    now apply sectionSelect_change_keeps.
  - now apply Hsame.
  - now apply sectionSelect_change_keeps.
  - now apply Hsame.
  - now apply Hsame.
  - unfold saveRegenBtn_click. rewrite Hdoc.
    eexists. split; [reflexivity|]. intros k Hk. now apply has_key_commit.
  - apply Hsame. unfold saveRegenBtn_settle.
    destruct r as [m|t|m|data]; try exact Hdoc.
    destruct (prop data "status") as [[| |b|status|items|o]|];
      destruct (prop data "view_url"); try exact Hdoc;
      destruct (status =? "success"); exact Hdoc.
  - apply Hsame. unfold previewBtn_click.
    destruct (truthy (currentViewUrl st)); exact Hdoc.
Qed.

(** X15. Nothing discards the editing copy or a section of it: once the
    editor holds a document, it holds one after any run, and every section
    the document had is still a section of it.  Cancel, a failed save and a
    new open all keep the edits made so far. *)
Theorem editing_copy_only_grows (trace : list event) (st : state)
    (doc : obj) :
  currentEditingData st = Some doc ->
  exists doc',
    currentEditingData (run trace st) = Some doc'
    /\ forall k, has_key doc k = true -> has_key doc' k = true.
Proof.
  unfold run. revert st doc.
  induction trace as [|e rest IH]; intros st doc Hdoc; simpl.
  - exists doc. now split.
  - destruct (step_keeps e st doc Hdoc) as (doc1 & Hdoc1 & Hkeys1).
    destruct (IH (step e st) doc1 Hdoc1) as (doc2 & Hdoc2 & Hkeys2).
    exists doc2. split; [exact Hdoc2 | auto].
Qed.

End SessionFacts.

Section SessionScenarios.
Import Js Dom Editor Shapes Popup SampleJson Examples Scenarios.

(** The example document has no experience section; the user looks at it
    and goes back to the summary. *)
Lemma visit_adds_missing_example :
  exists doc',
    currentEditingData
      (select_section "summary" (select_section "experience" opened))
    = Some doc'
    /\ obj_get doc' "experience" = empty_value "experience".
Proof.
  apply (visit_adds_missing_section opened a_document
           (summary_form "old") "experience" "summary");
    try reflexivity; discriminate.
Defined.




Lemma first_open_example :
  let st' := editBtn_click (popup_loaded a_store "summary") in
  currentEditingData st' = Some a_document
  /\ editorUI st' = true
  /\ actionsDiv st' = false
  /\ storage st' = storage (popup_loaded a_store "summary")
  /\ alerts st' = alerts (popup_loaded a_store "summary").
Proof.
  apply (first_open_loads_snapshot (popup_loaded a_store "summary")
           a_document); reflexivity.
Defined.

Lemma reload_example :
  let saved :=
    commit a_document (sectionSelect typed)
      (parseEditor (sectionSelect typed) (formContainer typed) a_document) in
  let stored :=
    storage (saveRegenBtn_settle (Body a_success)
               (saveRegenBtn_click typed)) in
  let loaded := popup_loaded stored "summary" in
  currentViewUrl loaded
  = VStr "http://localhost:8000/view/Acme/42/Edited.pdf"
  /\ actionsDiv loaded = true
  /\ statusDiv loaded = "Resume updated."
  /\ currentEditingData loaded = None
  /\ currentEditingData (editBtn_click loaded) = Some (copy_obj saved)
  /\ (is_json (VObj saved) = true ->
      currentEditingData (editBtn_click loaded) = Some saved).
Proof.
  apply (saved_edits_survive_reload typed a_document a_success
           (VStr "http://localhost:8000/view/Acme/42/Edited.pdf")
           "summary"); reflexivity.
Defined.


Lemma failing_session_example :
  storage (run a_failing_session (popup_loaded a_store "summary"))
  = storage (popup_loaded a_store "summary")
  /\ currentViewUrl (run a_failing_session (popup_loaded a_store "summary"))
     = currentViewUrl (popup_loaded a_store "summary").
Proof.
  apply (unsuccessful_runs_keep_storage a_failing_session
           (popup_loaded a_store "summary")).
  reflexivity.
Defined.

Lemma editing_copy_example :
  exists doc',
    currentEditingData (run a_failing_session opened) = Some doc'
    /\ forall k, has_key a_document k = true -> has_key doc' k = true.
Proof.
  apply (editing_copy_only_grows a_failing_session opened a_document).
  reflexivity.
Defined.

End SessionScenarios.

(** ** The copy panel *)

Section CopyFacts.
Import Js Dom Editor Shapes Popup.

Lemma copy_card_inv (type : string) (index : nat) (item : value)
    (card : copy_node) :
  copy_card type index item = Some card ->
  exists t s preview bullets,
    card = CopyCard t s type index preview
    /\ prop item "bullets" = Some bullets
    /\ array_join " " (or_else bullets (VArr [])) = Some preview.
Proof.
  unfold copy_card. destruct (copy_titles type item) as [[t s]|]; simpl;
    [|discriminate].
  destruct (prop item "bullets") as [bullets|]; simpl; [|discriminate].
  destruct (array_join " " (or_else bullets (VArr []))) as [preview|] eqn:Hj;
    simpl; [|discriminate].
  intros [= <-]. exists t, s, preview, bullets. repeat split. exact Hj.
Qed.

Lemma traverse_some_both {A B C} (f : A -> option B) (g : A -> option C)
    (l : list A) (l' : list B) :
  (forall x, f x <> None -> g x <> None) ->
  traverse f l = Some l' -> exists l'', traverse g l = Some l''.
Proof.
  intros Hfg. revert l'.
  induction l as [|x rest IH]; simpl; intros l'; [eauto|].
  destruct (f x) as [y|] eqn:Hx; simpl; [|discriminate].
  destruct (traverse f rest) as [ys|]; simpl; [|discriminate].
  intros _. destruct (IH ys eq_refl) as (zs & ->).
  destruct (g x) as [z|] eqn:Hz; simpl; [eauto|].
  destruct (Hfg x); congruence.
Qed.

(** An item that has a card has a text to copy: the bullets the preview
    has converted convert for the clipboard too. *)
Lemma copy_card_text (type : string) (index : nat) (item : value)
    (card : copy_node) :
  copy_card type index item = Some card ->
  exists text, item_text item = Some text.
Proof.
  intros Hcard.
  destruct (copy_card_inv type index item card Hcard)
    as (t & s & preview & bullets & _ & Hb & Hjoin).
  unfold item_text. rewrite Hb. cbn [bind]. unfold or_else in Hjoin.
  destruct (truthy bullets); [|eauto].
  destruct bullets as [| |b|str|bs|o]; simpl in Hjoin; try discriminate.
  destruct (traverse _ bs) as [texts|] eqn:Htexts in Hjoin;
    [|discriminate].
  assert (Hlines : exists lines,
             traverse (fun b => do text <- to_string b;
                                Some (bullet_mark ++ text)) bs
             = Some lines).
  { refine (traverse_some_both _ _ bs texts _ Htexts).
    intros x Hx. destruct x; simpl in *; try discriminate;
      destruct (to_string _); simpl; congruence. }
  destruct Hlines as (lines & ->). cbn [bind]. eauto.
Qed.

Lemma append_cards_spec (type : string) (items : list value) :
  forall (index : nat) (shown shown' : list copy_node) (returned : bool),
    append_cards type index items shown = (shown', returned) ->
    exists cards,
      shown' = (shown ++ cards)%list
      /\ forall j card,
           nth_error cards j = Some card ->
           exists item,
             nth_error items j = Some item
             /\ copy_card type (index + j) item = Some card.
Proof.
  induction items as [|item rest IH]; intros index shown shown' returned;
    simpl.
  - intros [= <- _]. exists []. split; [now rewrite app_nil_r|].
    intros [|j] card; discriminate.
  - destruct (copy_card type index item) as [card|] eqn:Hcard.
    + intros Hrest. apply IH in Hrest as (cards & -> & Hcards).
      exists (card :: cards). split; [now rewrite <- app_assoc|].
      intros [|j] card' Hnth; simpl in Hnth.
      * injection Hnth as <-. exists item. split; [reflexivity|].
        now rewrite Nat.add_0_r.
      * destruct (Hcards j card' Hnth) as (item' & Hitem' & Hcard').
        exists item'. split; [exact Hitem'|].
        now rewrite Nat.add_succ_r.
    + intros [= <- _]. exists []. split; [now rewrite app_nil_r|].
      intros [|j] card; discriminate.
Qed.

(** What a section adds to the list: its cards sit behind the header, each
    made from the item at its index. *)
Lemma createSection_spec (title : string) (items : value) (type : string)
    (shown shown' : list copy_node) (returned : bool) :
  createSection title items type shown = (shown', returned) ->
  exists added,
    shown' = (shown ++ added)%list
    /\ forall n t s type' index preview,
         nth_error added n = Some (CopyCard t s type' index preview) ->
         type' = type
         /\ exists item,
              element items index = Some item
              /\ copy_card type index item
                 = Some (CopyCard t s type' index preview).
Proof.
  unfold createSection.
  destruct (truthy items) eqn:Htruthy; simpl.
  - destruct items as [| |b|str|l|o];
      try (intros [= <- _]; exists [CopyHeader title];
           split; [reflexivity|];
           intros [|[|n]] t s type' index preview; discriminate).
    destruct l as [|item rest].
    + intros [= <- _]. exists []. split; [now rewrite app_nil_r|].
      intros [|n] t s type' index preview; discriminate.
    + intros Hcards.
      apply append_cards_spec in Hcards as (cards & -> & Hcards).
      exists (CopyHeader title :: cards).
      split; [now rewrite <- app_assoc|].
      intros [|n] t s type' index preview Hnth; simpl in Hnth;
        [discriminate|].
      destruct (Hcards n _ Hnth) as (item' & Hitem' & Hcard').
      simpl in Hcard'.
      destruct (copy_card_inv type n item' _ Hcard')
        as (t0 & s0 & p0 & b0 & Heq & _).
      injection Heq as _ _ -> -> _.
      split; [reflexivity|]. exists item'. split; [|exact Hcard'].
      unfold element. f_equal. now apply nth_error_nth.
  - intros [= <- _]. exists []. split; [now rewrite app_nil_r|].
    intros [|n] t s type' index preview; discriminate.
Qed.

(** Every card of the panel, traced back to the item it was made from. *)
Lemma renderCopyUI_cards (data : obj) (shown : list copy_node)
    (returned : bool) (n : nat) (t s type : string) (index : nat)
    (preview : string) :
  renderCopyUI data = (shown, returned) ->
  nth_error shown n = Some (CopyCard t s type index preview) ->
  (type = "experience" \/ type = "project")
  /\ exists item,
       element (obj_get data (section_of type)) index = Some item
       /\ copy_card type index item = Some (CopyCard t s type index preview).
Proof.
  unfold renderCopyUI.
  destruct (createSection "Experience" (obj_get data "experience")
              "experience" []) as [shown1 returned1] eqn:Hfirst.
  apply createSection_spec in Hfirst as (added1 & -> & Hadded1).
  simpl.
  assert (Hexp : forall m,
             nth_error added1 m = Some (CopyCard t s type index preview) ->
             (type = "experience" \/ type = "project")
             /\ exists item,
                  element (obj_get data (section_of type)) index = Some item
                  /\ copy_card type index item
                     = Some (CopyCard t s type index preview)).
  { intros m Hm. destruct (Hadded1 m _ _ _ _ _ Hm) as (-> & item & He & Hc).
    split; [now left|]. now exists item. }
  destruct returned1.
  - intros Hsecond Hnth.
    apply createSection_spec in Hsecond as (added2 & -> & Hadded2).
    destruct (Nat.lt_ge_cases n (length added1)) as [Hlt | Hge].
    + rewrite nth_error_app1 in Hnth by exact Hlt. eauto.
    + rewrite nth_error_app2 in Hnth by exact Hge.
      destruct (Hadded2 _ _ _ _ _ _ Hnth) as (-> & item & He & Hc).
      split; [now right|]. now exists item.
  - intros [= <- _] Hnth. eauto.
Qed.

(** X16. A copy button copies the bullets of the item its card shows:
    when the copy panel has been filled from the stored document, its
    buttons are live and its texts are free of markup, the card at any
    place of the list was made from the item at its index in its section,
    and a click on its button puts the text of that very item on the
    clipboard, or nothing when the item has no bullets. *)
Theorem copy_button_copies_shown_item (p : page) (data : obj) (n : nat)
    (t s type : string) (index : nat) (preview : string) :
  lastResumeData (storage (session p)) = Some data ->
  let p' := copyContentBtn_click p in
  copy_data p' = Some data ->
  plain_panel (copyList p') = true ->
  nth_error (copyList p') n = Some (CopyCard t s type index preview) ->
  exists item text,
    element (obj_get data (section_of type)) index = Some item
    /\ copy_card type index item = Some (CopyCard t s type index preview)
    /\ item_text item = Some text
    /\ clipboard (copyBtn_click n p')
       = if text =? "" then clipboard p else (clipboard p ++ [text])%list.
Proof.
  intros Hstored p'. subst p'. unfold copyContentBtn_click. rewrite Hstored.
  destruct (renderCopyUI data) as [shown returned] eqn:Hrender.
  cbn [copy_data copyList]. intros Hlive _ Hnth.
  destruct (renderCopyUI_cards data shown returned n t s type index preview
              Hrender Hnth) as (Htype & item & Helement & Hcard).
  destruct (copy_card_text type index item _ Hcard) as (text & Htext).
  exists item, text. split; [exact Helement|]. split; [exact Hcard|].
  split; [exact Htext|].
  assert (Hcopy : copy_text data type index = Some text).
  { unfold copy_text. unfold section_of in Helement.
    destruct Htype as [-> | ->]; simpl in *; now rewrite Helement. }
  unfold copyBtn_click. cbn [copy_data copyList clipboard].
  rewrite Hlive, Hnth, Hcopy.
  destruct (text =? ""); reflexivity.
Qed.









End CopyFacts.

Section CopyExamples.
Import Js Dom Editor Shapes Popup SampleJson Examples Scenarios.

(** The third element of the panel is the header of the projects; the
    fourth is the card of the project. *)
Lemma copy_button_example :
  exists item text,
    element (obj_get a_resume (section_of "project")) 0 = Some item
    /\ copy_card "project" 0 item
       = Some (CopyCard "Resume tool" "Python" "project" 0 "Parsed job posts")
    /\ item_text item = Some text
    /\ clipboard (copyBtn_click 3 (copyContentBtn_click a_page))
       = if text =? "" then clipboard a_page
         else (clipboard a_page ++ [text])%list.
Proof.
  apply (copy_button_copies_shown_item a_page a_resume 3
           "Resume tool" "Python" "project" 0 "Parsed job posts");
    reflexivity.
Defined.


End CopyExamples.

(** ** The buttons that add to a form *)

Section ButtonFacts.
Import Js Dom Editor Shapes Popup.
Context `{Json}.

(** The blocks of a form made of a list element and its add button. *)
Lemma list_form_blocks (i : string) (blocks : list node) :
  querySelectorAll "item-block" [div_id i blocks; button []]
  = querySelectorAll "item-block" blocks.
Proof.
  rewrite querySelectorAll_cons, subtree_filter. simpl.
  unfold querySelectorAll at 2. simpl. now rewrite app_nil_r.
Qed.

Lemma flat_map_snoc {A B} (f : A -> list B) (l : list A) (x : A) :
  flat_map f (l ++ [x]) = (flat_map f l ++ f x)%list.
Proof. rewrite flat_map_app. simpl. now rewrite app_nil_r. Qed.

Lemma add_item_form (section : string) (blocks : list node) (block : node) :
  renderItemBlock (newItem section) section = Some block ->
  add_item section [div_id "itemsList" blocks; button []]
  = [div_id "itemsList" (blocks ++ [block]); button []].
Proof. intros Hblock. unfold add_item. now rewrite Hblock. Qed.

(** X18. The button that adds an item appends one entry and touches no
    other: on a form of any item blocks, a click makes the section parse to
    the entries it parsed to before, followed by one entry that holds the
    values of the template of the section. *)
Theorem add_item_appends_template (section : string) (blocks : list node)
    (doc : obj) :
  is_list_section section = true ->
  let form := [div_id "itemsList" blocks; button []] in
  exists entries entry,
    parseEditor section (Some form) doc = VArr entries
    /\ parseEditor section (Some (add_item section form)) doc
       = VArr (entries ++ [entry])
    /\ same_object entry (newItem section).
Proof.
  intros Hs form. subst form.
  rewrite !(parseEditor_list section _ doc Hs). unfold parse_items.
  rewrite list_form_blocks.
  exists (map (parse_item section) (querySelectorAll "item-block" blocks)).
  destruct (list_section_cases section Hs) as [-> | [-> | ->]].
  - rewrite (add_item_form "experience" blocks _ eq_refl).
    rewrite list_form_blocks, querySelectorAll_app, map_app.
    eexists. split; [reflexivity|]. split; [reflexivity|].
    match goal with
    | |- same_object ?x ?y =>
        let x' := eval vm_compute in x in
        let y' := eval vm_compute in y in
        change (same_object x' y')
    end.
    match goal with
    | |- same_object (VObj ?p) (VObj ?e) =>
        exact (same_entry "experience" e p eq_refl eq_refl
                 ltac:(repeat constructor))
    end.
  - rewrite (add_item_form "projects" blocks _ eq_refl).
    rewrite list_form_blocks, querySelectorAll_app, map_app.
    eexists. split; [reflexivity|]. split; [reflexivity|].
    match goal with
    | |- same_object ?x ?y =>
        let x' := eval vm_compute in x in
        let y' := eval vm_compute in y in
        change (same_object x' y')
    end.
    match goal with
    | |- same_object (VObj ?p) (VObj ?e) =>
        exact (same_entry "projects" e p eq_refl eq_refl
                 ltac:(repeat constructor))
    end.
  - rewrite (add_item_form "leadership" blocks _ eq_refl).
    rewrite list_form_blocks, querySelectorAll_app, map_app.
    eexists. split; [reflexivity|]. split; [reflexivity|].
    match goal with
    | |- same_object ?x ?y =>
        let x' := eval vm_compute in x in
        let y' := eval vm_compute in y in
        change (same_object x' y')
    end.
    match goal with
    | |- same_object (VObj ?p) (VObj ?e) =>
        exact (same_entry "leadership" e p eq_refl eq_refl
                 ltac:(repeat constructor))
    end.
Qed.

(** X19. The button that adds a skill category assigns the name
    [New Category] an empty text: on a form of any blocks, a click makes
    the section parse to what it parsed to before with the empty string
    assigned under that name.  A category that already has this name,
    from an earlier click, loses its skills. *)
Theorem add_category_assigns_empty (blocks : list node) (doc : obj) :
  let form := [div_id "skillsList" blocks; button []] in
  exists o,
    parseEditor "skills" (Some form) doc = VObj o
    /\ parseEditor "skills" (Some (add_category form)) doc
       = VObj (obj_set o "New Category" (VStr "")).
Proof.
  intros form. subst form.
  change (parseEditor "skills" (Some [div_id "skillsList" blocks; button []])
            doc)
    with (parse_skills [div_id "skillsList" blocks; button []]).
  change (parseEditor "skills"
            (Some (add_category [div_id "skillsList" blocks; button []]))
            doc)
    with (parse_skills
            [div_id "skillsList" (blocks ++ [skill_block "New Category" ""]);
             button []]).
  rewrite !parse_skills_pairs. eexists. split; [reflexivity|].
  rewrite <- assign_all_snoc. f_equal. f_equal.
  unfold skill_pairs.
  rewrite !list_form_blocks, querySelectorAll_app, flat_map_app.
  reflexivity.
Qed.

End ButtonFacts.

Section AddButtonExamples.
Import Js Dom Editor Shapes Popup SampleJson Examples.

Lemma add_item_appends_example :
  let form := [div_id "itemsList" []; button []] in
  exists entries entry,
    parseEditor "projects" (Some form) a_document = VArr entries
    /\ parseEditor "projects" (Some (add_item "projects" form)) a_document
       = VArr (entries ++ [entry])
    /\ same_object entry (newItem "projects").
Proof.
  apply (add_item_appends_template "projects" [] a_document). reflexivity.
Defined.

End AddButtonExamples.
